(** * CreateMPMDMetadata: the SJPG thumbnail pipeline and the G-code injector

    A shallow embedding of [CreateMPMDMetadata.py], the Cura post-processing
    script that embeds a thumbnail and print metadata for the Monoprice Mini
    Delta v2 firmware, together with the properties its specification states.

    Conventions.
    - Python [int] is [Z]; [bytes]/[bytearray] is [list byte]; [str] is
      [string] (the G-code handled by the script is ASCII text).
    - A Python call that may raise is a function into [option] when the
      exception is caught at once by the surrounding [try] (the [None] the
      method then returns), and into [result] when the exception travels.
    - The host application (Cura, Qt) is a record of observations, [host]. *)

From Stdlib Require Import ZArith List Bool Lia.
From Stdlib.Strings Require Import String Ascii Byte.
From Stdlib.Numbers Require Import DecimalString.
Import ListNotations.

Local Open Scope string_scope.
Local Open Scope list_scope.
Local Open Scope Z_scope.

(** ** Exceptions and results *)

Inductive exn : Type :=
| ValueError
| TypeError
| IndexError
| UnboundLocalError.

Inductive result (A : Type) : Type :=
| Ok (a : A)
| Raise (e : exn).

Arguments Ok {A} a.
Arguments Raise {A} e.

Definition bind {A B : Type} (r : result A) (k : A -> result B) : result B :=
  match r with
  | Ok a => k a
  | Raise e => Raise e
  end.

Notation "x <~ r ;; k" := (bind r (fun x => k))
  (at level 61, r at next level, right associativity).

Notation "x <- o ;; k" :=
  (match o with Some x => k | None => None end)
  (at level 61, o at next level, right associativity).

(** ** Binary64 arithmetic

    Python's [float] is IEEE 754 binary64.  A finite value is
    [(-1)^neg * m * 2^e] with [0 <= m < 2^53] and [-1074 <= e <= 971].
    Every operation the script performs on floats is the exact result
    rounded to nearest, ties to even. *)

Module Float64.

Inductive float : Type :=
| Fnan
| Finf (neg : bool)
| Ffin (neg : bool) (m e : Z).

(** Nearest integer to [p / q], ties to even ([0 <= p], [0 < q]). *)
Definition rne_div (p q : Z) : Z :=
  let d := p / q in
  match 2 * (p mod q) ?= q with
  | Lt => d
  | Gt => d + 1
  | Eq => if Z.even d then d else d + 1
  end.

(** [floor (log2 (p / q))] for [0 < p], [0 < q]. *)
Definition ilog2_ratio (p q : Z) : Z :=
  let l := Z.log2 p - Z.log2 q in
  let ge := if 0 <=? l then q * 2 ^ l <=? p else q <=? p * 2 ^ (- l) in
  if ge then l else l - 1.

(** The binary64 nearest to [(-1)^neg * p / q] ([0 <= p], [0 < q]);
    overflow gives an infinity, underflow a subnormal or a zero. *)
Definition round (neg : bool) (p q : Z) : float :=
  if p =? 0 then Ffin neg 0 0
  else
    let e := Z.max (-1074) (ilog2_ratio p q - 52) in
    let m := if 0 <=? e then rne_div p (q * 2 ^ e)
             else rne_div (p * 2 ^ (- e)) q in
    let e' := if m =? 2 ^ 53 then e + 1 else e in
    let m' := if m =? 2 ^ 53 then 2 ^ 52 else m in
    if 971 <? e' then Finf neg else Ffin neg m' e'.

(** [a / b] on two [int]s (true division): [ZeroDivisionError] when [b] is
    zero, [OverflowError] when the quotient is too large for a float. *)
Definition int_truediv (a b : Z) : option float :=
  if b =? 0 then None
  else
    match round (negb (Bool.eqb (a <? 0) (b <? 0))) (Z.abs a) (Z.abs b) with
    | Finf _ => None
    | x => Some x
    end.

(** [math.ceil x]: raises on an infinity or a NaN. *)
Definition ceil (x : float) : option Z :=
  match x with
  | Ffin neg m e =>
      let n := if neg then - m else m in
      Some (if 0 <=? e then n * 2 ^ e else - ((- n) / 2 ^ (- e)))
  | _ => None
  end.

(** [x * k] for a float [x] and the float of a small positive integer [k]
    (here 1000, which binary64 holds exactly). *)
Definition mul_int (x : float) (k : Z) : float :=
  match x with
  | Ffin neg m e =>
      if 0 <=? e then round neg (m * k * 2 ^ e) 1
      else round neg (m * k) (2 ^ (- e))
  | _ => x
  end.

End Float64.

(** ** Bytes *)

Definition bytes : Type := list byte.

Definition byte_of_Z (z : Z) : byte :=
  match Byte.of_N (Z.to_N z) with
  | Some b => b
  | None => x00
  end.

Definition Z_of_byte (b : byte) : Z := Z.of_N (Byte.to_N b).

(** [n.to_bytes(2, byteorder="little")]: [OverflowError] unless
    [0 <= n < 2^16]. *)
Definition to_bytes2_little (n : Z) : option bytes :=
  if (0 <=? n) && (n <? 65536)
  then Some [byte_of_Z (n mod 256); byte_of_Z (n / 256)]
  else None.

(** [s.encode("UTF-8")] on ASCII text. *)
Definition encode (s : string) : bytes := list_byte_of_string s.

(** [range(n)] *)
Definition range (n : Z) : list Z := map Z.of_nat (seq 0 (Z.to_nat n)).

(** ** The Segmented-JPEG encoder *)

Definition SJPG_FILE_FORMAT_VERSION : string := "V1.00".
Definition THUMBNAIL_WIDTH : Z := 140.
Definition THUMBNAIL_HEIGHT : Z := 140.

(** The rectangle [QImage.copy(x, y, w, h)] is asked for. *)
Record rect : Type := Rect { rect_x : Z; rect_y : Z; rect_w : Z; rect_h : Z }.

(** A [QImage] is observed only through [copy] followed by [save] into a
    fresh [QBuffer]: for a rectangle and a quality, the bytes the buffer
    holds afterwards, or [None] when one of the Qt calls raises. *)
Definition QImage : Type := rect -> Z -> option bytes.

(** [math.ceil(height / fragment_height)] *)
Definition parts_of (height fragment_height : Z) : option Z :=
  x <- Float64.int_truediv height fragment_height ;;
  Float64.ceil x.

(** State of the strip loop. *)
Record strips : Type := Strips {
  row_remaining : Z;
  sjpeg_data : bytes;
  lenbuf : list Z
}.

(** The rectangle cropped in iteration [i]. *)
Definition crop_rect (width fragment_height row_remaining i : Z) : rect :=
  Rect 0 (i * fragment_height) width (Z.min row_remaining fragment_height).

(** One iteration of [for i in range(parts)]. *)
Definition strip_step (snapshot : QImage) (width quality fragment_height : Z)
    (st : strips) (i : Z) : option strips :=
  buf <- snapshot (crop_rect width fragment_height (row_remaining st) i) quality ;;
  Some (Strips (row_remaining st - fragment_height)
               (sjpeg_data st ++ buf)
               (lenbuf st ++ [Z.of_nat (List.length buf)])).

Fixpoint strip_loop (snapshot : QImage) (width quality fragment_height : Z)
    (st : strips) (ixs : list Z) : option strips :=
  match ixs with
  | [] => Some st
  | i :: ixs' =>
      st' <- strip_step snapshot width quality fragment_height st i ;;
      strip_loop snapshot width quality fragment_height st' ixs'
  end.

(** [for item_len in lenbuf: header = header + item_len.to_bytes(2, ...)] *)
Fixpoint append_lengths (header : bytes) (lens : list Z) : option bytes :=
  match lens with
  | [] => Some header
  | item_len :: lens' =>
      b <- to_bytes2_little item_len ;;
      append_lengths (header ++ b) lens'
  end.

(** [_convertImageToSJPG]; [None] is the value returned after the
    [except Exception] clause has logged the failure. *)
Definition _convertImageToSJPG (snapshot : QImage)
    (width height quality fragment_height : Z) : option bytes :=
  parts <- parts_of height fragment_height ;;
  st <- strip_loop snapshot width quality fragment_height
          (Strips height [] []) (range parts) ;;
  let header := [] in
  let header := header ++ encode "_SJPG__" in
  let header := header ++
    encode (String "000" (SJPG_FILE_FORMAT_VERSION ++ String "000" ""))%string in
  w <- to_bytes2_little width ;;
  let header := header ++ w in
  h <- to_bytes2_little height ;;
  let header := header ++ h in
  p <- to_bytes2_little parts ;;
  let header := header ++ p in
  f <- to_bytes2_little fragment_height ;;
  let header := header ++ f in
  header <- append_lengths header (lenbuf st) ;;
  Some (header ++ sjpeg_data st).

(** ** The hex encoder *)

(** The digit [base64.b16encode] writes for a nibble. *)
Definition b16digit (n : Z) : ascii :=
  match String.get (Z.to_nat n) "0123456789ABCDEF" with
  | Some c => c
  | None => "0"%char
  end.

(** [base64.b16encode(s)]: two upper-case digits per byte, high nibble
    first; the result is again a [bytes]. *)
Definition b16encode (s : bytes) : bytes :=
  flat_map (fun b => [byte_of_ascii (b16digit (Z_of_byte b / 16));
                      byte_of_ascii (b16digit (Z_of_byte b mod 16))]) s.

(** [b.decode("ascii")]: [UnicodeDecodeError] on a byte above 127. *)
Fixpoint decode_ascii (b : bytes) : option string :=
  match b with
  | [] => Some ""
  | c :: b' =>
      if Z_of_byte c <? 128
      then s <- decode_ascii b' ;; Some (String (ascii_of_byte c) s)
      else None
  end.

Definition lower_char (c : ascii) : ascii :=
  let n := Z.of_nat (nat_of_ascii c) in
  if (65 <=? n) && (n <=? 90) then ascii_of_nat (Z.to_nat (n + 32)) else c.

(** [s.lower()] on ASCII text. *)
Fixpoint lower (s : string) : string :=
  match s with
  | "" => ""
  | String c s' => String (lower_char c) (lower s')
  end.

(** [_encodeSnapshot]; the argument is [None] when the previous stage
    returned [None], and [b16encode(None)] raises a [TypeError] that the
    [except Exception] clause turns into a returned [None]. *)
Definition _encodeSnapshot (snapshot : option bytes) : option string :=
  s <- snapshot ;;
  base16_message <- decode_ascii (b16encode s) ;;
  Some (lower base16_message).

(** ** The thumbnail block builder *)

(** [range(0, stop, step)] for [0 <= stop]: [ValueError] on a zero step. *)
Definition range_step (stop step : Z) : result (list Z) :=
  if step =? 0 then Raise ValueError
  else if step <? 0 then Ok []
  else Ok (map (fun k => Z.of_nat k * step)
               (seq 0 (Z.to_nat ((stop + step - 1) / step)))).

(** [s[i : j]] for [0 <= i]. *)
Definition slice (s : string) (i j : Z) : string :=
  substring (Z.to_nat i) (Z.to_nat (j - i)) s.

(** [_convertSnapshotToGcode]; [len(None)] raises a [TypeError], and the
    method has no handler. *)
Definition _convertSnapshotToGcode (encoded_snapshot : option string)
    (chunk_size : Z) : result (list string) :=
  match encoded_snapshot with
  | None => Raise TypeError
  | Some encoded_snapshot =>
      let gcode := [] in
      let gcode := gcode ++ ["; thumbnail begin"] in
      let gcode := gcode ++ ["W221"] in
      starts <~ range_step (Z.of_nat (String.length encoded_snapshot)) chunk_size ;;
      let chunks :=
        map (fun i => ("W220 " ++ slice encoded_snapshot i (i + chunk_size))%string)
            starts in
      let gcode := gcode ++ chunks in
      let gcode := gcode ++ ["W222"] in
      let gcode := gcode ++ ["; thumbnail end"] in
      let gcode := gcode ++ [""] in
      Ok gcode
  end.

(** ** [str] methods used by the injector *)

(** [s.startswith(p)] *)
Definition startswith (s p : string) : bool := String.prefix p s.

(** [s.split(sep)] for a one-character separator. *)
Fixpoint split (sep : ascii) (s : string) : list string :=
  match s with
  | "" => [""]
  | String c s' =>
      if Ascii.eqb c sep then "" :: split sep s'
      else match split sep s' with
           | h :: t => String c h :: t
           | [] => [String c ""]
           end
  end.

(** [sep.join(l)] *)
Definition join (sep : string) (l : list string) : string :=
  String.concat sep l.

(** The text after the last [sep] of [s], if [sep] occurs. *)
Fixpoint after_last (sep : ascii) (s : string) : option string :=
  match s with
  | "" => None
  | String c s' =>
      match after_last sep s' with
      | Some t => Some t
      | None => if Ascii.eqb c sep then Some s' else None
      end
  end.

(** [s.rsplit(sep, 1)[1]]: [IndexError] when [sep] does not occur. *)
Definition rsplit1_last (sep : ascii) (s : string) : result string :=
  match after_last sep s with
  | Some t => Ok t
  | None => Raise IndexError
  end.

(** [s.replace(c, "")] for a one-character [c]. *)
Fixpoint remove_char (c : ascii) (s : string) : string :=
  match s with
  | "" => ""
  | String d s' =>
      if Ascii.eqb d c then remove_char c s' else String d (remove_char c s')
  end.

(** ** [float(s)] and [f"{x:.2f}"] *)

Definition code (c : ascii) : Z := Z.of_nat (nat_of_ascii c).

(** The white space [float] strips at both ends of an ASCII [str]: tab,
    line feed, vertical tab, form feed, carriage return and space. *)
Definition is_space (c : ascii) : bool :=
  ((9 <=? code c) && (code c <=? 13)) || (code c =? 32).

Definition is_digit (c : ascii) : bool :=
  (48 <=? code c) && (code c <=? 57).

Fixpoint lstrip (s : string) : string :=
  match s with
  | "" => ""
  | String c s' => if is_space c then lstrip s' else s
  end.

Fixpoint rstrip (s : string) : string :=
  match s with
  | "" => ""
  | String c s' =>
      match rstrip s' with
      | "" => if is_space c then "" else String c ""
      | t => String c t
      end
  end.

(** Underscores are dropped, and are allowed only between two digits;
    [prev] is the character before [s]. *)
Fixpoint strip_underscores (prev : ascii) (s : string) : option string :=
  match s with
  | "" => if Ascii.eqb prev "_" then None else Some ""
  | String c s' =>
      if Ascii.eqb c "_" then
        if is_digit prev then strip_underscores c s' else None
      else if Ascii.eqb prev "_" && negb (is_digit c) then None
      else t <- strip_underscores c s' ;; Some (String c t)
  end.

(** Reads the digits at the head of [s] into [acc]; returns the number
    read, how many digits it had, and the rest of [s]. *)
Fixpoint digits (acc count : Z) (s : string) : Z * Z * string :=
  match s with
  | "" => (acc, count, s)
  | String c s' =>
      if is_digit c then digits (10 * acc + (code c - 48)) (count + 1) s'
      else (acc, count, s)
  end.

Definition parse_sign (s : string) : bool * string :=
  match s with
  | String c s' =>
      if Ascii.eqb c "-" then (true, s')
      else if Ascii.eqb c "+" then (false, s')
      else (false, s)
  | "" => (false, s)
  end.

Fixpoint skip (n : nat) (s : string) : string :=
  match n, s with
  | S n', String _ s' => skip n' s'
  | _, _ => s
  end.

(** The decimal literal at the head of [s], correctly rounded, and the
    text after it; [None] when [s] does not start with one.  An exponent
    mark that no digit follows is not part of the literal. *)
Definition strtod (s : string) : option (Float64.float * string) :=
  let '(neg, s1) := parse_sign s in
  let '(ip, ni, s2) := digits 0 0 s1 in
  let '(m, nf, s3) :=
    match s2 with
    | String c s' => if Ascii.eqb c "." then digits ip 0 s' else (ip, 0, s2)
    | "" => (ip, 0, s2)
    end in
  if ni + nf =? 0 then None
  else
    let '(ex, s4) :=
      match s3 with
      | String c s' =>
          if Ascii.eqb c "e" || Ascii.eqb c "E" then
            let '(eneg, s'') := parse_sign s' in
            let '(ev, ne, r) := digits 0 0 s'' in
            if ne =? 0 then (0, s3) else (if eneg then - ev else ev, r)
          else (0, s3)
      | "" => (0, s3)
      end in
    let e10 := ex - nf in
    Some (if 0 <=? e10 then Float64.round neg (m * 10 ^ e10) 1
          else Float64.round neg m (10 ^ (- e10)),
          s4).

(** [inf], [infinity] or [nan] at the head of [s], in any case. *)
Definition parse_inf_or_nan (s : string) : option (Float64.float * string) :=
  let '(neg, s1) := parse_sign s in
  if startswith (lower s1) "inf" then
    let s2 := skip 3 s1 in
    if startswith (lower s2) "inity" then Some (Float64.Finf neg, skip 5 s2)
    else Some (Float64.Finf neg, s2)
  else if startswith (lower s1) "nan" then Some (Float64.Fnan, skip 3 s1)
  else None.

(** [float(s)] for a [str] of ASCII characters: [ValueError] unless the
    whole of [s], white space at both ends apart, is a literal. *)
Definition float_of_str (s : string) : result Float64.float :=
  match strip_underscores "000" (rstrip (lstrip s)) with
  | None => Raise ValueError
  | Some t =>
      match
        match strtod t with
        | Some r => Some r
        | None => parse_inf_or_nan t
        end
      with
      | Some (x, "") => Ok x
      | _ => Raise ValueError
      end
  end.

(** Decimal digits of a natural number. *)
Definition dec (n : Z) : string :=
  NilEmpty.string_of_uint (N.to_uint (Z.to_N n)).

(** [f"{x:.2f}"]: the exact value of [x] rounded to two decimals, ties
    to even. *)
Definition format_2f (x : Float64.float) : string :=
  match x with
  | Float64.Fnan => "nan"
  | Float64.Finf neg => if neg then "-inf" else "inf"
  | Float64.Ffin neg m e =>
      let n := if 0 <=? e then m * 100 * 2 ^ e
               else Float64.rne_div (m * 100) (2 ^ (- e)) in
      let sign := if neg then "-" else "" in
      let pad := if n mod 100 <? 10 then "0" else "" in
      (sign ++ dec (n / 100) ++ "." ++ pad ++ dec (n mod 100))%string
  end.

(** ** [list] methods used by the injector *)

(** [l.index(x)]: position of the first element equal to [x]. *)
Fixpoint index_of (x : string) (l : list string) : option nat :=
  match l with
  | [] => None
  | y :: l' =>
      if String.eqb y x then Some O
      else n <- index_of x l' ;; Some (S n)
  end.

(** [l.index(x)], with its [ValueError]. *)
Definition index (x : string) (l : list string) : result nat :=
  match index_of x l with
  | Some n => Ok n
  | None => Raise ValueError
  end.

(** [l[i]] for [0 <= i], with its [IndexError]. *)
Definition getitem (l : list string) (i : nat) : result string :=
  match nth_error l i with
  | Some x => Ok x
  | None => Raise IndexError
  end.

(** [l[i] = x] for [0 <= i], with its [IndexError]. *)
Fixpoint setitem (l : list string) (i : nat) (x : string)
  : result (list string) :=
  match l, i with
  | [], _ => Raise IndexError
  | _ :: l', O => Ok (x :: l')
  | y :: l', S i' => l'' <~ setitem l' i' x ;; Ok (y :: l'')
  end.

(** [l.insert(i, x)] for [0 <= i]. *)
Definition insert (i : nat) (x : string) (l : list string) : list string :=
  firstn i l ++ x :: skipn i l.

(** [l[i:i] = xs] for [0 <= i]. *)
Definition splice (i : nat) (xs l : list string) : list string :=
  firstn i l ++ xs ++ skipn i l.

(** ** The host application *)

(** An extruder stack: the metadata dictionary of its material ([None]
    when reaching it raises) and its properties, already rendered as
    [str] does ([None] when [getProperty] raises). *)
Record extruder : Type := Extruder {
  getMetaData : option (string -> option string);
  getProperty : string -> string -> option string
}.

Record host : Type := Host {
  (** [getGlobalContainerStack().extruderList]; [None] when it raises. *)
  extruderList : option (list extruder);
  (** [Snapshot.snapshot(width, height)]; [None] when it raises (and
      [_createSnapshot] then returns [None]) or returns [None] itself. *)
  Snapshot_snapshot : Z -> Z -> option QImage;
  (** [self.getSettingValueByKey("quality")] *)
  quality_setting : Z
}.

Definition _createSnapshot (h : host) (width height : Z) : option QImage :=
  Snapshot_snapshot h width height.

(** The local variables [material] and [infill_density] after the first
    [try] of [execute]; [None] is a variable left unbound because the
    [try] block raised before assigning it. *)
Definition print_settings (h : host) : option string * option string :=
  match extruderList h with
  | Some [extruder] =>
      match getMetaData extruder with
      | Some metadata =>
          let material :=
            match metadata "material" with Some v => v | None => "" end in
          (Some material, getProperty extruder "infill_sparse_density" "value")
      | None => (None, None)
      end
  | _ => (None, None)
  end.

(** Reading a local variable: [UnboundLocalError] when it is unbound. *)
Definition load (v : option string) : result string :=
  match v with
  | Some x => Ok x
  | None => Raise UnboundLocalError
  end.

(** ** The document metadata injector *)

Definition newline : ascii := "010"%char.

Definition FILAMENT_USED : string := ";Filament used: ".
Definition GENERATED_WITH : string := ";Generated with Cura".

(** The body of [for line in lines], run on the [line] the iterator has
    just produced; the boolean tells whether [break] was reached. *)
Definition visit (material infill_density : option string)
    (snapshot_gcode : list string) (line : string) (lines : list string)
  : result (bool * list string) :=
  lines <~
    (if startswith line FILAMENT_USED then
       line_index <~ index line lines ;;
       token <~ rsplit1_last " " line ;;
       amount_m <~ float_of_str (remove_char "m" token) ;;
       let amount_mm := Float64.mul_int amount_m 1000 in
       lines <~ setitem lines line_index
                  (";FilamentUsed:" ++ format_2f amount_mm)%string ;;
       material <~ load material ;;
       let lines := insert line_index (";FilamentType:" ++ material)%string lines in
       infill_density <~ load infill_density ;;
       Ok (insert line_index (";InfillDensity:" ++ infill_density)%string lines)
     else Ok lines) ;;
  if startswith line GENERATED_WITH then
    line_index <~ index line lines ;;
    let insert_index := S line_index in
    Ok (true, splice insert_index snapshot_gcode lines)
  else Ok (false, lines).

(** [for line in lines]: the list iterator keeps a position [i] and reads
    the list as it is now, so it sees the lines the body inserts.  [None]
    only when [fuel] iterations were not enough. *)
Fixpoint scan (fuel : nat) (material infill_density : option string)
    (snapshot_gcode : list string) (i : nat) (lines : list string)
  : option (result (list string)) :=
  match nth_error lines i with
  | None => Some (Ok lines)
  | Some line =>
      match fuel with
      | O => None
      | S fuel' =>
          match visit material infill_density snapshot_gcode line lines with
          | Raise e => Some (Raise e)
          | Ok (true, lines') => Some (Ok lines')
          | Ok (false, lines') =>
              scan fuel' material infill_density snapshot_gcode (S i) lines'
          end
      end
  end.

(** The body of [for layer in data] from [lines = ...split] to
    [final_lines]. *)
Definition process_layer (material infill_density : option string)
    (snapshot_gcode : list string) (text : string) : option (result string) :=
  let lines := split newline text in
  r <- scan (3 * List.length lines) material infill_density snapshot_gcode O lines ;;
  Some (lines' <~ r ;; Ok (join (String newline "") lines')).

(** [for layer in data], the iterator being at the positions [ixs]; the
    layer rewritten is the first one equal to [layer]. *)
Fixpoint layer_loop (material infill_density : option string)
    (snapshot_gcode : list string) (ixs : list nat) (data : list string)
  : option (result (list string)) :=
  match ixs with
  | [] => Some (Ok data)
  | i :: ixs' =>
      match nth_error data i with
      | None => Some (Ok data)
      | Some layer =>
          match
            (layer_index <~ index layer data ;;
             text <~ getitem data layer_index ;;
             Ok (layer_index, text))
          with
          | Raise e => Some (Raise e)
          | Ok (layer_index, text) =>
              r <- process_layer material infill_density snapshot_gcode text ;;
              match (final_lines <~ r ;; setitem data layer_index final_lines) with
              | Raise e => Some (Raise e)
              | Ok data' =>
                  layer_loop material infill_density snapshot_gcode ixs' data'
              end
          end
      end
  end.

(** [execute]: [Some (Ok data)] when it returns, [Some (Raise e)] when [e]
    escapes to the caller. *)
Definition execute (h : host) (data : list string)
  : option (result (list string)) :=
  let '(material, infill_density) := print_settings h in
  let quality := quality_setting h in
  let width := THUMBNAIL_WIDTH in
  let height := THUMBNAIL_HEIGHT in
  match _createSnapshot h width height with
  | Some snapshot =>
      let sjpg_snapshot := _convertImageToSJPG snapshot width height quality 16 in
      let encoded_snapshot := _encodeSnapshot sjpg_snapshot in
      match _convertSnapshotToGcode encoded_snapshot 80 with
      | Raise e => Some (Raise e)
      | Ok snapshot_gcode =>
          layer_loop material infill_density snapshot_gcode
            (seq 0 (List.length data)) data
      end
  | None => Some (Ok data)
  end.

(** * What the specification talks about

    The definitions below are not part of the script: they give the
    specification's notions a meaning against which the functions above
    are compared. *)

(** ** Strips and the container layout *)

(** [ceil (a / b)] on exact integers. *)
Definition ceil_div (a b : Z) : Z := - ((- a) / b).

(** [n] is a value a 2-byte unsigned field can hold. *)
Definition fits16 (n : Z) : Prop := 0 <= n < 65536.

(** The 2-byte little-endian field holding [n]. *)
Definition le16 (n : Z) : bytes := [byte_of_Z (n mod 256); byte_of_Z (n / 256)].

(** The integer a 2-byte little-endian field at offset [off] of [c] holds. *)
Definition u16_at (c : bytes) (off : nat) : Z :=
  Z_of_byte (nth off c x00) + 256 * Z_of_byte (nth (S off) c x00).

Fixpoint all_some {A : Type} (l : list (option A)) : option (list A) :=
  match l with
  | [] => Some []
  | o :: l' => x <- o ;; xs <- all_some l' ;; Some (x :: xs)
  end.

(** Strip [i] of an image [width] x [height] cut every [fragment_height]
    rows, as the loop crops it: the rows left below [i * fragment_height],
    at most [fragment_height] of them. *)
Definition strip_rect (width height fragment_height i : Z) : rect :=
  Rect 0 (i * fragment_height) width
       (Z.min (height - i * fragment_height) fragment_height).

(** The compressed strips [0 .. parts - 1], top to bottom; [None] when one
    compression fails. *)
Definition compressed_strips (snapshot : QImage)
    (width height quality fragment_height parts : Z) : option (list bytes) :=
  all_some (map (fun i => snapshot (strip_rect width height fragment_height i) quality)
                (range parts)).

(** The rows the specification gives strip [i]: a full fragment, except
    for the last strip, which takes the remainder when there is one. *)
Definition spec_rows (height fragment_height i : Z) : Z :=
  if i <? ceil_div height fragment_height - 1 then fragment_height
  else if height mod fragment_height =? 0 then fragment_height
  else height mod fragment_height.

(** The strips of the specification: [ceil (height / fragment_height)] of
    them, the full width each, from the top down. *)
Definition spec_strips (width height fragment_height : Z) : list rect :=
  map (fun i => Rect 0 (i * fragment_height) width
                     (spec_rows height fragment_height i))
      (range (ceil_div height fragment_height)).

(** The byte layout of the specification. *)
Definition sjpg_layout (width height count fragment_height : Z)
    (payloads : list bytes) : bytes :=
  encode "_SJPG__" ++
  [x00] ++ encode "V1.00" ++ [x00] ++
  le16 width ++ le16 height ++ le16 count ++ le16 fragment_height ++
  flat_map (fun p => le16 (Z.of_nat (List.length p))) payloads ++
  List.concat payloads.

(** Reading a container back: the strip count at offset 18, the length
    table from offset 22, the payload after the table. *)
Definition declared_strip_count (c : bytes) : Z := u16_at c 18.

Definition declared_lengths (c : bytes) : list Z :=
  map (fun k => u16_at c (22 + 2 * k)%nat)
      (seq 0 (Z.to_nat (declared_strip_count c))).

Definition strip_payload (c : bytes) : bytes :=
  skipn (22 + 2 * Z.to_nat (declared_strip_count c))%nat c.

Definition sum (l : list Z) : Z := fold_right Z.add 0 l.

(** ** Hexadecimal text *)

Definition is_lower_hex (c : ascii) : bool :=
  is_digit c || ((97 <=? code c) && (code c <=? 102)).

Fixpoint all_chars (p : ascii -> bool) (s : string) : bool :=
  match s with
  | "" => true
  | String c s' => p c && all_chars p s'
  end.

(** A character of the ASCII range. *)
Definition is_ascii (c : ascii) : bool := code c <? 128.

(** The value of a hexadecimal digit, in either case. *)
Definition hexval (c : ascii) : option Z :=
  if is_digit c then Some (code c - 48)
  else if (97 <=? code c) && (code c <=? 102) then Some (code c - 87)
  else if (65 <=? code c) && (code c <=? 70) then Some (code c - 55)
  else None.

(** Hex decoding ([bytes.fromhex]): two digits per byte, high nibble
    first. *)
Fixpoint unhexlify (s : string) : option bytes :=
  match s with
  | "" => Some []
  | String a (String b s') =>
      hi <- hexval a ;; lo <- hexval b ;; r <- unhexlify s' ;;
      Some (byte_of_Z (16 * hi + lo) :: r)
  | _ => None
  end.

(** ** Thumbnail block lines *)

(** Concatenation of a list of strings. *)
Definition cat (l : list string) : string := fold_right String.append "" l.

(** [s] cut into pieces of [n] characters, the last one possibly shorter. *)
Fixpoint chunks (fuel n : nat) (s : string) : list string :=
  match fuel, s with
  | S fuel', String _ _ => substring 0 n s :: chunks fuel' n (skip n s)
  | _, _ => []
  end.

(** The payload of a data line: what follows its ["W220 "]. *)
Definition data_payload (line : string) : option string :=
  if startswith line "W220 " then Some (skip 5 line) else None.

(** The payloads of the data lines of a block, in order. *)
Definition data_payloads (gcode : list string) : list string :=
  flat_map (fun l => match data_payload l with Some p => [p] | None => [] end)
           gcode.

(** ** One pass over the lines of a layer *)

(** The lines a layer ends up with, written as a single pass from the
    first line to the last: a filament-usage line becomes three lines, the
    first generator line is followed by the thumbnail block and ends the
    pass, any other line is kept. *)
Fixpoint walk (material infill_density : option string)
    (snapshot_gcode : list string) (lines : list string)
  : result (list string) :=
  match lines with
  | [] => Ok []
  | line :: rest =>
      if startswith line FILAMENT_USED then
        token <~ rsplit1_last " " line ;;
        amount_m <~ float_of_str (remove_char "m" token) ;;
        let amount_mm := Float64.mul_int amount_m 1000 in
        material' <~ load material ;;
        infill_density' <~ load infill_density ;;
        rest' <~ walk material infill_density snapshot_gcode rest ;;
        Ok ((";InfillDensity:" ++ infill_density')%string ::
            (";FilamentType:" ++ material')%string ::
            (";FilamentUsed:" ++ format_2f amount_mm)%string :: rest')
      else if startswith line GENERATED_WITH then
        Ok (line :: snapshot_gcode ++ rest)
      else
        rest' <~ walk material infill_density snapshot_gcode rest ;;
        Ok (line :: rest')
  end.

(** A line that starts with neither marker. *)
Definition plain (line : string) : Prop :=
  startswith line FILAMENT_USED = false /\ startswith line GENERATED_WITH = false.

(** The thumbnail block placed after the first generator line, if any. *)
Fixpoint after_generator (snapshot_gcode : list string) (lines : list string)
  : list string :=
  match lines with
  | [] => []
  | line :: rest =>
      if startswith line GENERATED_WITH then line :: snapshot_gcode ++ rest
      else line :: after_generator snapshot_gcode rest
  end.

(** The lines around the data lines of a thumbnail block. *)
Definition framed (data_lines : list string) : list string :=
  ["; thumbnail begin"; "W221"] ++ data_lines ++ ["W222"; "; thumbnail end"; ""].

(** Every chunk but the last is full, and the last is not empty. *)
Fixpoint full_but_last (n : nat) (l : list string) : Prop :=
  match l with
  | [] => True
  | [c] => (1 <= String.length c <= n)%nat
  | c :: l' => String.length c = n /\ full_but_last n l'
  end.

(** [text] has a line equal to [line]. *)
Definition has_line (line text : string) : bool :=
  existsb (String.eqb line) (split newline text).

(** * Sample inputs

    Concrete images, hosts and documents on which the statements below are
    evaluated. *)

(** An image whose every strip compresses to the single byte [0x41]. *)
Definition one_byte_strips : QImage := fun _ _ => Some [x41].

(** One extruder, PLA at 20 % infill, and a snapshot that compresses. *)
Definition pla_extruder : extruder :=
  Extruder (Some (fun key => if String.eqb key "material" then Some "PLA" else None))
           (fun key property =>
              if String.eqb key "infill_sparse_density" && String.eqb property "value"
              then Some "20" else None).

Definition good_host : host :=
  Host (Some [pla_extruder]) (fun _ _ => Some one_byte_strips) 30.

(** Two extruders: the [assert] of [execute] fails. *)
Definition two_extruder_host : host :=
  Host (Some [pla_extruder; pla_extruder]) (fun _ _ => Some one_byte_strips) 30.

(** No snapshot can be taken. *)
Definition no_snapshot_host : host :=
  Host (Some [pla_extruder]) (fun _ _ => None) 30.

(** A snapshot whose strips cannot be saved. *)
Definition broken_image : QImage := fun _ _ => None.

Definition broken_image_host : host :=
  Host (Some [pla_extruder]) (fun _ _ => Some broken_image) 30.

(** An image whose strip at row 48 cannot be saved. *)
Definition fails_at_row_48 : QImage :=
  fun r _ => if rect_y r =? 48 then None else Some [x41].

(** The thumbnail block [good_host] gets. *)
Definition good_host_block : list string :=
  Eval vm_compute in
    match _convertSnapshotToGcode
            (_encodeSnapshot (_convertImageToSJPG one_byte_strips 140 140 30 16)) 80
    with
    | Ok gcode => gcode
    | Raise _ => []
    end.

(** A layer that is only a generator line, rewritten once and twice. *)
Definition once_rewritten : string :=
  join (String newline "") (";Generated with Cura" :: good_host_block).

Definition twice_rewritten : string :=
  join (String newline "")
       (";Generated with Cura" :: good_host_block ++ good_host_block).

(** A layer that is only the line [";Filament used: 2m"], rewritten for
    [good_host]. *)
Definition two_metres_rewritten : string :=
  join (String newline "")
       [";InfillDensity:20"; ";FilamentType:PLA"; ";FilamentUsed:2000.00"].

(** An image whose every strip compresses to one byte, the number of its
    rows. *)
Definition rows_image : QImage := fun r _ => Some [byte_of_Z (rect_h r)].

(** An image whose every strip compresses to 65536 bytes. *)
Definition long_strips : QImage := fun _ _ => Some (repeat x00 (Z.to_nat 65536)).

(** * Properties *)

(** * Bytes and 2-byte fields *)

Lemma Z_of_byte_range (b : byte) : 0 <= Z_of_byte b < 256.
Proof.
  unfold Z_of_byte. pose proof (Byte.to_N_bounded b). lia.
Qed.

Lemma Z_of_byte_of_Z (z : Z) : 0 <= z < 256 -> Z_of_byte (byte_of_Z z) = z.
Proof.
  intros Hz. unfold Z_of_byte, byte_of_Z.
  destruct (Byte.of_N (Z.to_N z)) as [b|] eqn:E.
  - apply Byte.to_of_N in E. rewrite E. lia.
  - apply Byte.of_N_None_iff in E. lia.
Qed.

Lemma byte_of_Z_of_byte (b : byte) : byte_of_Z (Z_of_byte b) = b.
Proof.
  unfold Z_of_byte, byte_of_Z. rewrite N2Z.id, Byte.of_to_N. reflexivity.
Qed.

Lemma u16_at_le16 (n : Z) (rest : bytes) :
  fits16 n -> u16_at (le16 n ++ rest) 0 = n.
Proof.
  intros Hn. unfold fits16 in Hn. unfold u16_at, le16. cbn [app nth].
  rewrite !Z_of_byte_of_Z.
  - pose proof (Z.div_mod n 256). lia.
  - split; [apply Z.div_pos; lia | apply Z.div_lt_upper_bound; lia].
  - apply Z.mod_pos_bound. lia.
Qed.

Lemma to_bytes2_little_Some (n : Z) (b : bytes) :
  to_bytes2_little n = Some b <-> fits16 n /\ b = le16 n.
Proof.
  unfold to_bytes2_little, fits16, le16.
  destruct (0 <=? n) eqn:E1; destruct (n <? 65536) eqn:E2; cbn [andb];
    split; intros H; try discriminate; try lia.
  - injection H as <-. split; [lia | reflexivity].
  - destruct H as [_ ->]. reflexivity.
Qed.

Lemma to_bytes2_little_fits (n : Z) :
  fits16 n -> to_bytes2_little n = Some (le16 n).
Proof. intros H. apply to_bytes2_little_Some. auto. Qed.

Lemma append_lengths_Some (lens : list Z) :
  forall header out,
    append_lengths header lens = Some out <->
    Forall fits16 lens /\ out = header ++ flat_map le16 lens.
Proof.
  induction lens as [|n lens IH]; intros header out; cbn [append_lengths flat_map].
  - rewrite app_nil_r. split.
    + intros [= <-]. auto.
    + intros [_ ->]. reflexivity.
  - destruct (to_bytes2_little n) as [b|] eqn:E.
    + apply to_bytes2_little_Some in E. destruct E as [Hn ->].
      rewrite IH, <- app_assoc. split.
      * intros [Hl ->]. auto.
      * intros [Hl ->]. inversion Hl; auto.
    + split; [discriminate|]. intros [Hl _]. inversion Hl as [|? ? Hn _]; subst.
      rewrite (to_bytes2_little_fits _ Hn) in E. discriminate.
Qed.

(** * The strip loop *)

Lemma strip_loop_closed (snapshot : QImage) (width height quality fragment_height : Z) :
  forall n k data lens,
    strip_loop snapshot width quality fragment_height
      (Strips (height - Z.of_nat k * fragment_height) data lens)
      (map Z.of_nat (seq k n)) =
    (ps <- all_some (map (fun i => snapshot (strip_rect width height fragment_height i) quality)
                         (map Z.of_nat (seq k n))) ;;
     Some (Strips (height - Z.of_nat (k + n) * fragment_height)
                  (data ++ List.concat ps)
                  (lens ++ map (fun p => Z.of_nat (List.length p)) ps))).
Proof.
  induction n as [|n IH]; intros k data lens.
  - cbn. rewrite Nat.add_0_r, !app_nil_r. reflexivity.
  - cbn [seq map strip_loop all_some]. unfold strip_step at 1.
    cbn [row_remaining sjpeg_data lenbuf]. unfold crop_rect, strip_rect.
    destruct (snapshot _ quality) as [buf|]; [|reflexivity].
    replace (height - Z.of_nat k * fragment_height - fragment_height)
      with (height - Z.of_nat (S k) * fragment_height) by lia.
    rewrite IH.
    destruct (all_some _) as [ps|]; [|reflexivity].
    cbn [List.concat map]. rewrite <- !app_assoc. cbn [app].
    replace (S k + n)%nat with (k + S n)%nat by lia. reflexivity.
Qed.

Lemma all_some_length {A} (l : list (option A)) (xs : list A) :
  all_some l = Some xs -> List.length xs = List.length l.
Proof.
  revert xs. induction l as [|o l IH]; intros xs; cbn.
  - intros [= <-]. reflexivity.
  - destruct o; [|discriminate]. destruct (all_some l); [|discriminate].
    intros [= <-]. cbn. f_equal. auto.
Qed.

Lemma range_length (n : Z) : List.length (range n) = Z.to_nat n.
Proof. unfold range. rewrite length_map, length_seq. reflexivity. Qed.

Lemma convert_unfold (snapshot : QImage) (width height quality fragment_height : Z) (c : bytes) :
  _convertImageToSJPG snapshot width height quality fragment_height = Some c <->
  exists parts payloads,
    parts_of height fragment_height = Some parts /\
    compressed_strips snapshot width height quality fragment_height parts = Some payloads /\
    fits16 width /\ fits16 height /\ fits16 parts /\ fits16 fragment_height /\
    Forall (fun p => fits16 (Z.of_nat (List.length p))) payloads /\
    c = sjpg_layout width height parts fragment_height payloads.
Proof.
  unfold _convertImageToSJPG, compressed_strips, range.
  destruct (parts_of height fragment_height) as [parts|];
    [|split; [discriminate | intros (? & ? & [=] & _)]].
  pose proof (strip_loop_closed snapshot width height quality fragment_height
                (Z.to_nat parts) 0 [] []) as L.
  cbn [Z.of_nat] in L. rewrite Z.mul_0_l, Z.sub_0_r in L. rewrite L. clear L.
  destruct (all_some _) as [ps|] eqn:Eall;
    [|split; [discriminate | intros (? & ? & [= <-] & E & _); congruence]].
  cbn [sjpeg_data lenbuf app].
  split.
  - intros H.
    destruct (to_bytes2_little width) as [w|] eqn:Ew; [|discriminate].
    destruct (to_bytes2_little height) as [h|] eqn:Eh; [|discriminate].
    destruct (to_bytes2_little parts) as [p|] eqn:Ep; [|discriminate].
    destruct (to_bytes2_little fragment_height) as [f|] eqn:Ef; [|discriminate].
    destruct (append_lengths _ _) as [hd|] eqn:El; [|discriminate].
    injection H as <-.
    apply to_bytes2_little_Some in Ew, Eh, Ep, Ef.
    destruct Ew as [Hw ->], Eh as [Hh ->], Ep as [Hp ->], Ef as [Hf ->].
    apply append_lengths_Some in El. destruct El as [Hl ->].
    exists parts, ps.
    refine (conj eq_refl (conj Eall (conj Hw (conj Hh (conj Hp (conj Hf (conj _ _))))))).
    + rewrite Forall_map in Hl. exact Hl.
    + unfold sjpg_layout. rewrite flat_map_concat_map, map_map, <- flat_map_concat_map.
      rewrite <- !app_assoc. reflexivity.
  - intros (parts' & ps' & [= <-] & E & Hw & Hh & Hp & Hf & Hl & ->).
    assert (ps' = ps) as -> by congruence. clear E.
    rewrite !to_bytes2_little_fits by assumption.
    destruct (append_lengths _ _) as [hd|] eqn:El.
    + apply append_lengths_Some in El. destruct El as [_ ->].
      unfold sjpg_layout. rewrite (flat_map_concat_map _ (map _ ps)), map_map, <- flat_map_concat_map.
      rewrite <- !app_assoc. reflexivity.
    + exfalso.
      assert (Forall fits16 (map (fun p => Z.of_nat (List.length p)) ps)) as Hl'
        by (rewrite Forall_map; exact Hl).
      erewrite (proj2 (append_lengths_Some _ _ _)) in El;
        [discriminate | split; [exact Hl' | reflexivity]].
Qed.

Lemma u16_at_app (pre rest : bytes) (k : nat) :
  u16_at (pre ++ rest) (List.length pre + k) = u16_at rest k.
Proof.
  unfold u16_at. rewrite plus_n_Sm, !app_nth2_plus. reflexivity.
Qed.

Lemma flat_map_le16_length (lens : list Z) :
  List.length (flat_map le16 lens) = (2 * List.length lens)%nat.
Proof.
  induction lens as [|n lens IH]; cbn [flat_map List.length]; [reflexivity|].
  rewrite length_app, IH. cbn. lia.
Qed.

Lemma table_entry (lens : list Z) (rest : bytes) :
  Forall fits16 lens ->
  forall k, (k < List.length lens)%nat ->
    u16_at (flat_map le16 lens ++ rest) (2 * k) = nth k lens 0.
Proof.
  induction 1 as [|n lens Hn Hl IH]; intros k Hk; cbn [List.length] in Hk; [lia|].
  cbn [flat_map]. rewrite <- app_assoc. destruct k as [|k].
  - apply u16_at_le16. exact Hn.
  - replace (2 * S k)%nat with (List.length (le16 n) + 2 * k)%nat by (cbn; lia).
    rewrite u16_at_app. cbn [nth]. apply IH. lia.
Qed.

Lemma map_nth_seq (l : list Z) (f : nat -> Z) :
  (forall k, (k < List.length l)%nat -> f k = nth k l 0) ->
  map f (seq 0 (List.length l)) = l.
Proof.
  revert f. induction l as [|x l IH]; intros f Hf; cbn [List.length seq map]; [reflexivity|].
  rewrite (Hf O) by (cbn; lia). cbn [nth]. f_equal.
  rewrite <- seq_shift, map_map. apply IH.
  intros k Hk. rewrite Hf by (cbn; lia). reflexivity.
Qed.

Lemma sum_lengths (ps : list bytes) :
  sum (map (fun p => Z.of_nat (List.length p)) ps) = Z.of_nat (List.length (List.concat ps)).
Proof.
  induction ps as [|p ps IH]; cbn [map sum fold_right List.concat]; [reflexivity|].
  fold (sum (map (fun p => Z.of_nat (List.length p)) ps)).
  rewrite IH, length_app. lia.
Qed.

(** Reading back a container laid out as the specification says. *)
Lemma layout_read (width height count fragment_height : Z) (payloads : list bytes) :
  fits16 count -> count = Z.of_nat (List.length payloads) ->
  Forall (fun p => fits16 (Z.of_nat (List.length p))) payloads ->
  let c := sjpg_layout width height count fragment_height payloads in
  declared_strip_count c = count /\
  declared_lengths c = map (fun p => Z.of_nat (List.length p)) payloads /\
  strip_payload c = List.concat payloads.
Proof.
  intros Hc Hcount Hl c.
  set (lens := map (fun p => Z.of_nat (List.length p)) payloads).
  assert (Forall fits16 lens) as Hlens by (unfold lens; rewrite Forall_map; exact Hl).
  assert (List.length lens = List.length payloads) as Hlen by (unfold lens; apply length_map).
  set (pre := encode "_SJPG__" ++ [x00] ++ encode "V1.00" ++ [x00] ++
              le16 width ++ le16 height).
  assert (c = pre ++ le16 count ++ le16 fragment_height ++
              flat_map le16 lens ++ List.concat payloads) as Ec.
  { unfold c, sjpg_layout, pre, lens.
    rewrite (flat_map_concat_map le16), map_map, <- flat_map_concat_map.
    rewrite <- !app_assoc. reflexivity. }
  assert (declared_strip_count c = count) as E1.
  { unfold declared_strip_count. rewrite Ec.
    change 18%nat with (List.length pre + 0)%nat.
    rewrite u16_at_app. apply u16_at_le16. exact Hc. }
  split; [exact E1|]. split.
  - unfold declared_lengths. rewrite E1, Hcount, Nat2Z.id, <- Hlen.
    apply map_nth_seq. intros k Hk. rewrite Ec, <- table_entry with (rest := List.concat payloads) by assumption.
    replace (pre ++ le16 count ++ le16 fragment_height ++ flat_map le16 lens ++ List.concat payloads)
      with ((pre ++ le16 count ++ le16 fragment_height) ++ flat_map le16 lens ++ List.concat payloads)
      by (rewrite <- !app_assoc; reflexivity).
    change (22 + 2 * k)%nat with (List.length (pre ++ le16 count ++ le16 fragment_height) + 2 * k)%nat.
    apply u16_at_app.
  - unfold strip_payload. rewrite E1, Hcount, Nat2Z.id, Ec.
    replace (pre ++ le16 count ++ le16 fragment_height ++ flat_map le16 lens ++ List.concat payloads)
      with ((pre ++ le16 count ++ le16 fragment_height ++ flat_map le16 lens) ++ List.concat payloads)
      by (rewrite <- !app_assoc; reflexivity).
    rewrite skipn_app.
    assert (List.length (pre ++ le16 count ++ le16 fragment_height ++ flat_map le16 lens)
            = (22 + 2 * List.length payloads)%nat) as E.
    { rewrite !length_app, flat_map_le16_length, Hlen. cbn. lia. }
    rewrite <- E, skipn_all, Nat.sub_diag. reflexivity.
Qed.

(** * The strip count: [math.ceil] of a float quotient *)

Lemma rne_div_bounds (p q : Z) :
  0 < q -> p / q <= Float64.rne_div p q <= p / q + 1.
Proof.
  intros Hq. unfold Float64.rne_div.
  destruct (2 * (p mod q) ?= q); [destruct (Z.even (p / q))|..]; lia.
Qed.

Lemma rne_div_exact (p q : Z) :
  0 < q -> p mod q = 0 -> Float64.rne_div p q = p / q.
Proof.
  intros Hq Hm. unfold Float64.rne_div. rewrite Hm.
  destruct (2 * 0 ?= q) eqn:E; try reflexivity; exfalso.
  - apply Z.compare_eq in E. lia.
  - rewrite Z.compare_gt_iff in E. lia.
Qed.

Lemma rne_div_up (p q : Z) :
  0 < q -> q < 2 * (p mod q) -> Float64.rne_div p q = p / q + 1.
Proof.
  intros Hq Hm. unfold Float64.rne_div.
  destruct (2 * (p mod q) ?= q) eqn:E; try reflexivity; exfalso.
  - apply Z.compare_eq in E. lia.
  - rewrite Z.compare_lt_iff in E. lia.
Qed.

(** Rounding [H * 2^s / F] to an integer [m] keeps the ceiling of
    [H / F] in [m / 2^s], as long as [F < 2^(s+1)]. *)
Lemma ceil_of_rounded (H F s : Z) :
  0 <= H -> 0 < F -> 0 <= s -> F < 2 ^ (s + 1) ->
  - ((- Float64.rne_div (H * 2 ^ s) F) / 2 ^ s) = ceil_div H F.
Proof.
  intros HH HF Hs HFs. unfold ceil_div.
  assert (0 < 2 ^ s) as Hp by (apply Z.pow_pos_nonneg; lia).
  assert (2 ^ (s + 1) = 2 * 2 ^ s) as E2 by (rewrite Z.pow_add_r by lia; lia).
  set (S := 2 ^ s) in *.
  pose proof (Z.div_mod H F ltac:(lia)) as EH.
  pose proof (Z.mod_pos_bound H F HF) as Hr.
  set (k := H / F) in *. set (r := H mod F) in *.
  destruct (Z.eq_dec r 0) as [Hr0|Hr0].
  - (* exact quotient *)
    assert (H * S = F * (k * S)) as E by nia.
    rewrite rne_div_exact; [| lia | rewrite E, Z.mul_comm; apply Z.mod_mul; lia].
    rewrite E. rewrite (Z.mul_comm F), Z.div_mul by lia.
    replace (- (k * S)) with ((- k) * S) by lia. rewrite Z.div_mul by lia.
    replace (- H) with ((- k) * F) by nia. rewrite Z.div_mul by lia. lia.
  - (* a remainder: the rounded value lies in (k S, (k+1) S] *)
    assert (- H = F * (- k - 1) + (F - r)) as EnH by lia.
    assert ((- H) / F = - k - 1) as ->.
    { symmetry. apply (Z.div_unique_pos _ _ _ (F - r)); lia. }
    set (m := Float64.rne_div (H * S) F).
    assert (k * S < m <= (k + 1) * S) as Hm.
    { pose proof (rne_div_bounds (H * S) F HF) as B. fold m in B.
      pose proof (Z.div_mod (H * S) F ltac:(lia)) as ED.
      pose proof (Z.mod_pos_bound (H * S) F HF) as HD.
      set (d := H * S / F) in *. set (t := (H * S) mod F) in *.
      assert (k * S <= d) by nia.
      assert (d < (k + 1) * S) by nia.
      split; [|lia].
      destruct (Z.eq_dec d (k * S)) as [Ed|]; [|lia].
      assert (t = r * S) as Et by nia.
      unfold m. rewrite rne_div_up; fold d; fold t; [lia | lia | nia]. }
    assert ((- m) / S = - k - 1) as ->; [|lia].
    symmetry. apply (Z.div_unique_pos _ _ _ ((k + 1) * S - m)); lia.
Qed.

Lemma ilog2_ratio_spec (H F : Z) :
  0 < H < 2 ^ 53 -> 0 < F < 2 ^ 53 ->
  let L := Float64.ilog2_ratio H F in
  -53 <= L <= 52 /\ F * 2 ^ 52 <= H * 2 ^ (52 - L).
Proof.
  intros HH HF. unfold Float64.ilog2_ratio.
  pose proof (Z.log2_spec H ltac:(lia)) as SH.
  pose proof (Z.log2_spec F ltac:(lia)) as SF.
  pose proof (Z.log2_nonneg H) as NH. pose proof (Z.log2_nonneg F) as NF.
  assert (Z.log2 H < 53) as LH by (apply Z.log2_lt_pow2; lia).
  assert (Z.log2 F < 53) as LF by (apply Z.log2_lt_pow2; lia).
  set (lh := Z.log2 H) in *. set (lf := Z.log2 F) in *.
  rewrite <- !Z.add_1_r in SH, SF.
  set (l := lh - lf).
  assert (forall a b, 0 <= a -> 0 <= b -> 2 ^ a * 2 ^ b = 2 ^ (a + b)) as PW
    by (intros; rewrite Z.pow_add_r by lia; reflexivity).
  assert (forall a, 0 <= a -> 0 < 2 ^ a) as PP by (intros; apply Z.pow_pos_nonneg; lia).
  match goal with |- context [if ?c then l else l - 1] => destruct c eqn:Ege end.
  - split; [lia|].
    destruct (0 <=? l) eqn:El.
    + apply Z.leb_le in El, Ege.
      pose proof (PW l (52 - l) ltac:(lia) ltac:(lia)) as E.
      replace (l + (52 - l)) with 52 in E by lia.
      pose proof (PP (52 - l) ltac:(lia)). nia.
    + apply Z.leb_gt in El. apply Z.leb_le in Ege.
      pose proof (PW (- l) 52 ltac:(lia) ltac:(lia)) as E.
      replace (- l + 52) with (52 - l) in E by lia.
      pose proof (PP 52 ltac:(lia)). nia.
  - split; [lia|].
    replace (52 - (l - 1)) with (53 - l) by lia.
    pose proof (PW lh (53 - l) ltac:(lia) ltac:(lia)) as E1.
    pose proof (PW 52 (lf + 1) ltac:(lia) ltac:(lia)) as E2.
    replace (lh + (53 - l)) with (52 + (lf + 1)) in E1 by lia.
    pose proof (PP (53 - l) ltac:(lia)). pose proof (PP 52 ltac:(lia)). nia.
Qed.

(** On dimensions below [2^53] the float quotient loses nothing that
    [math.ceil] needs: the strip count is the exact ceiling. *)
Lemma parts_of_exact (H F : Z) :
  0 <= H < 2 ^ 53 -> 0 < F < 2 ^ 53 -> parts_of H F = Some (ceil_div H F).
Proof.
  intros HH HF. unfold parts_of, Float64.int_truediv.
  replace (F =? 0) with false by (symmetry; apply Z.eqb_neq; lia).
  replace (H <? 0) with false by (symmetry; apply Z.ltb_ge; lia).
  replace (F <? 0) with false by (symmetry; apply Z.ltb_ge; lia).
  cbn [Bool.eqb negb]. rewrite !Z.abs_eq by lia.
  unfold Float64.round.
  destruct (H =? 0) eqn:E0.
  - apply Z.eqb_eq in E0. subst H. reflexivity.
  - apply Z.eqb_neq in E0.
    pose proof (ilog2_ratio_spec H F ltac:(lia) HF) as [HL HB].
    set (L := Float64.ilog2_ratio H F) in *.
    rewrite Z.max_r by lia.
    set (s := 52 - L) in *.
    assert (0 < 2 ^ s) as Hp by (apply Z.pow_pos_nonneg; lia).
    assert (F < 2 ^ (s + 1)) as HFs.
    { rewrite Z.pow_add_r by lia. change (2 ^ 1) with 2.
      assert (H * 2 ^ s < 2 ^ 53 * 2 ^ s) by nia.
      change (2 ^ 53) with (2 * 2 ^ 52) in *. nia. }
    pose proof (ceil_of_rounded H F s ltac:(lia) ltac:(lia) ltac:(lia) HFs) as C.
    assert ((if 0 <=? L - 52 then Float64.rne_div H (F * 2 ^ (L - 52))
             else Float64.rne_div (H * 2 ^ (- (L - 52))) F)
            = Float64.rne_div (H * 2 ^ s) F) as ->.
    { destruct (0 <=? L - 52) eqn:El.
      - apply Z.leb_le in El. assert (s = 0) as Es by lia. rewrite Es.
        replace (L - 52) with 0 by lia. rewrite Z.pow_0_r, !Z.mul_1_r. reflexivity.
      - replace (- (L - 52)) with s by lia. reflexivity. }
    set (m := Float64.rne_div (H * 2 ^ s) F) in *.
    assert (0 <= m).
    { pose proof (rne_div_bounds (H * 2 ^ s) F ltac:(lia)) as B. fold m in B.
      assert (0 <= H * 2 ^ s / F) by (apply Z.div_pos; nia). lia. }
    destruct (m =? 2 ^ 53) eqn:Em.
    + apply Z.eqb_eq in Em.
      replace (971 <? L - 52 + 1) with false by (symmetry; apply Z.ltb_ge; lia).
      cbn [Float64.ceil]. f_equal. rewrite <- C, Em.
      destruct (0 <=? L - 52 + 1) eqn:El.
      * apply Z.leb_le in El.
        destruct (Z.eq_dec s 0) as [Es|Es].
        -- rewrite Es. replace (L - 52 + 1) with 1 by lia. reflexivity.
        -- assert (s = 1) as Es1 by lia. rewrite Es1.
           replace (L - 52 + 1) with 0 by lia. reflexivity.
      * apply Z.leb_gt in El.
        replace (- (L - 52 + 1)) with (s - 1) by lia.
        assert (2 ^ s = 2 * 2 ^ (s - 1)) as Ep.
        { replace s with (1 + (s - 1)) at 1 by lia. rewrite Z.pow_add_r by lia. reflexivity. }
        assert (0 < 2 ^ (s - 1)) by (apply Z.pow_pos_nonneg; lia).
        rewrite Ep. change (- 2 ^ 53) with (2 * - 2 ^ 52).
        rewrite Z.div_mul_cancel_l by lia. reflexivity.
    + replace (971 <? L - 52) with false by (symmetry; apply Z.ltb_ge; lia).
      cbn [Float64.ceil]. f_equal. rewrite <- C.
      destruct (0 <=? L - 52) eqn:El.
      * apply Z.leb_le in El. assert (s = 0) as Es by lia. rewrite Es.
        replace (L - 52) with 0 by lia. rewrite Z.pow_0_r, Z.mul_1_r, Z.div_1_r. lia.
      * replace (- (L - 52)) with s by lia. reflexivity.
Qed.

(** * Strips *)

Lemma ceil_div_bounds (H F : Z) :
  0 <= H -> 0 < F ->
  0 <= ceil_div H F /\ (ceil_div H F - 1) * F < H <= ceil_div H F * F \/
  H = 0 /\ ceil_div H F = 0.
Proof.
  intros HH HF. unfold ceil_div.
  pose proof (Z.div_mod (- H) F ltac:(lia)) as E.
  pose proof (Z.mod_pos_bound (- H) F HF) as B.
  destruct (Z.eq_dec H 0) as [->|]; [right; split; reflexivity|].
  left. nia.
Qed.

Lemma strip_rows (H F i : Z) :
  0 <= H -> 0 < F -> 0 <= i < ceil_div H F ->
  Z.min (H - i * F) F = spec_rows H F i.
Proof.
  intros HH HF Hi. unfold spec_rows.
  destruct (ceil_div_bounds H F HH HF) as [[Hk Hb]|[E0 Hz]]; [|exfalso; lia].
  pose proof (Z.div_mod H F ltac:(lia)) as E.
  pose proof (Z.mod_pos_bound H F HF) as B.
  set (k := ceil_div H F) in *.
  destruct (i <? k - 1) eqn:Ei.
  - apply Z.ltb_lt in Ei. apply Z.min_r. nia.
  - apply Z.ltb_ge in Ei. assert (i = k - 1) as -> by lia.
    destruct (H mod F =? 0) eqn:Em.
    + apply Z.eqb_eq in Em. apply Z.min_r.
      assert (k - 1 < H / F) by nia. assert (H / F <= k) by nia. nia.
    + apply Z.eqb_neq in Em.
      assert (H - (k - 1) * F = H mod F) as ->; [|apply Z.min_l; lia].
      assert (k - 1 <= H / F) by nia. assert (H / F < k) by nia. nia.
Qed.

Lemma strip_rects_spec (width H F : Z) :
  0 <= H -> 0 < F ->
  map (strip_rect width H F) (range (ceil_div H F)) = spec_strips width H F.
Proof.
  intros HH HF. unfold spec_strips. apply map_ext_in. intros i Hi.
  unfold range in Hi. apply in_map_iff in Hi. destruct Hi as (n & <- & Hn).
  apply in_seq in Hn. unfold strip_rect. f_equal. apply strip_rows; lia.
Qed.

(** ** The claims on the Segmented-JPEG encoder *)

(** C1.  For every image, quality and fragment height, the encoder returns
    a container exactly when the strip count is computed, every strip is
    compressed, and the four dimensions and every strip length fit a
    2-byte field; the container is then the magic tag ["_SJPG__"], the
    version ["V1.00"] between two null bytes, the width, the height, the
    strip count and the fragment height as 2-byte little-endian numbers,
    one 2-byte little-endian length per strip in strip order, and the
    compressed strips in strip order. *)
Theorem sjpg_container_layout
    (snapshot : QImage) (width height quality fragment_height : Z) (c : bytes) :
  _convertImageToSJPG snapshot width height quality fragment_height = Some c <->
  exists parts payloads,
    parts_of height fragment_height = Some parts /\
    compressed_strips snapshot width height quality fragment_height parts = Some payloads /\
    fits16 width /\ fits16 height /\ fits16 parts /\ fits16 fragment_height /\
    Forall (fun p => fits16 (Z.of_nat (List.length p))) payloads /\
    c = sjpg_layout width height parts fragment_height payloads.
Proof. apply convert_unfold. Qed.

Lemma compressed_spec_strips (snapshot : QImage)
    (width height quality fragment_height : Z) :
  0 <= height -> 0 < fragment_height ->
  compressed_strips snapshot width height quality fragment_height
                    (ceil_div height fragment_height)
  = all_some (map (fun r => snapshot r quality)
                  (spec_strips width height fragment_height)).
Proof.
  intros HH HF. unfold compressed_strips.
  rewrite <- strip_rects_spec by assumption. rewrite map_map. reflexivity.
Qed.

Lemma ceil_div_fits (H F : Z) : fits16 H -> 0 < F -> fits16 (ceil_div H F).
Proof.
  unfold fits16. intros HH HF.
  destruct (ceil_div_bounds H F ltac:(lia) HF) as [[H0 [H1 H2]]|[_ ->]]; [|lia].
  split; [exact H0|]. nia.
Qed.

(** C2.  The encoder returns a container exactly when the fragment height
    [F] is positive, the strips of the specification (there are
    [ceil (H / F)] of them, from the top down, the full width each, [F]
    rows each but for the last, which has [H mod F] rows, or [F] when [F]
    divides [H]) are all compressed, and every field fits; the container
    then holds these strips, compressed, in this order, and no other. *)
Theorem strips_top_to_bottom
    (snapshot : QImage) (width height quality fragment_height : Z) (c : bytes) :
  _convertImageToSJPG snapshot width height quality fragment_height = Some c <->
  exists payloads,
    0 < fragment_height /\
    all_some (map (fun r => snapshot r quality)
                  (spec_strips width height fragment_height)) = Some payloads /\
    List.length payloads = Z.to_nat (ceil_div height fragment_height) /\
    fits16 width /\ fits16 height /\ fits16 fragment_height /\
    Forall (fun p => fits16 (Z.of_nat (List.length p))) payloads /\
    c = sjpg_layout width height (ceil_div height fragment_height)
                    fragment_height payloads.
Proof.
  split.
  - intros Hc. apply convert_unfold in Hc.
    destruct Hc as (parts & ps & Hparts & Hps & Hw & Hh & Hp & Hf & Hl & ->).
    assert (0 < fragment_height) as HF.
    { destruct (Z.eq_dec fragment_height 0) as [->|]; [|unfold fits16 in Hf; lia].
      unfold parts_of, Float64.int_truediv in Hparts. cbn in Hparts. discriminate. }
    assert (parts = ceil_div height fragment_height) as ->.
    { rewrite parts_of_exact in Hparts by (unfold fits16 in *; cbn; lia).
      congruence. }
    rewrite compressed_spec_strips in Hps by (unfold fits16 in Hh; lia).
    exists ps. repeat (split; [assumption|]).
    split; [|repeat (split; [assumption|]); reflexivity].
    apply all_some_length in Hps. rewrite Hps. unfold spec_strips.
    rewrite !length_map. apply range_length.
  - intros (ps & HF & Hps & Hlen & Hw & Hh & Hf & Hl & ->).
    apply convert_unfold. exists (ceil_div height fragment_height), ps.
    split; [apply parts_of_exact; unfold fits16 in *; cbn; lia|].
    split; [rewrite compressed_spec_strips by (unfold fits16 in Hh; lia); exact Hps|].
    split; [exact Hw|]. split; [exact Hh|].
    split; [apply ceil_div_fits; assumption|].
    split; [exact Hf|]. split; [exact Hl|reflexivity].
Qed.

(** A 140 x 140 image cut every 16 rows: 9 strips, the 9th of 12 rows. *)
Lemma strips_top_to_bottom_140_16 :
  List.length (spec_strips 140 140 16) = 9%nat /\
  nth 8 (spec_strips 140 140 16) (Rect 0 0 0 0) = Rect 0 128 140 12 /\
  exists c,
    _convertImageToSJPG rows_image 140 140 30 16 = Some c /\
    declared_strip_count c = 9 /\
    strip_payload c = [x10; x10; x10; x10; x10; x10; x10; x10; x0c] /\
    exists payloads,
      0 < 16 /\
      all_some (map (fun r => rows_image r 30) (spec_strips 140 140 16))
        = Some payloads /\
      List.length payloads = Z.to_nat (ceil_div 140 16) /\
      fits16 140 /\ fits16 140 /\ fits16 16 /\
      Forall (fun p => fits16 (Z.of_nat (List.length p))) payloads /\
      c = sjpg_layout 140 140 (ceil_div 140 16) 16 payloads.
Proof.
  split; [reflexivity|]. split; [reflexivity|].
  eexists. split; [vm_compute; reflexivity|].
  split; [reflexivity|]. split; [reflexivity|].
  apply (proj1 (strips_top_to_bottom rows_image 140 140 30 16 _)).
  vm_compute. reflexivity.
Defined.

(** C3.  In every container the encoder returns, whatever the quality, the
    length table has one entry per strip, each entry is the length of its
    compressed strip, and the entries add up to the length of the payload
    that follows the table. *)
Theorem length_table_matches_payload
    (snapshot : QImage) (width height quality fragment_height : Z) (c : bytes) :
  _convertImageToSJPG snapshot width height quality fragment_height = Some c ->
  exists payloads,
    compressed_strips snapshot width height quality fragment_height
      (declared_strip_count c) = Some payloads /\
    parts_of height fragment_height = Some (declared_strip_count c) /\
    List.length (declared_lengths c) = Z.to_nat (declared_strip_count c) /\
    List.length payloads = Z.to_nat (declared_strip_count c) /\
    declared_lengths c = map (fun p => Z.of_nat (List.length p)) payloads /\
    strip_payload c = List.concat payloads /\
    sum (declared_lengths c) = Z.of_nat (List.length (strip_payload c)) /\
    List.length c =
      (22 + 2 * List.length (declared_lengths c) + List.length (strip_payload c))%nat.
Proof.
  intros Hc. apply convert_unfold in Hc.
  destruct Hc as (parts & ps & Hparts & Hps & Hw & Hh & Hp & Hf & Hl & ->).
  assert (List.length ps = Z.to_nat parts) as Hlen.
  { unfold compressed_strips in Hps. apply all_some_length in Hps.
    rewrite Hps, length_map. apply range_length. }
  assert (parts = Z.of_nat (List.length ps)) as Hcount
    by (unfold fits16 in Hp; lia).
  destruct (layout_read width height parts fragment_height ps Hp Hcount Hl)
    as (E1 & E2 & E3).
  exists ps. rewrite E1, E2, E3, length_map.
  repeat (split; [assumption || reflexivity|]).
  split; [apply sum_lengths|].
  unfold sjpg_layout.
  rewrite (flat_map_concat_map (fun p => le16 (Z.of_nat (List.length p)))).
  rewrite <- (map_map (fun p => Z.of_nat (List.length p)) le16), <- flat_map_concat_map.
  rewrite !length_app, flat_map_le16_length, length_map. cbn. lia.
Qed.

Lemma length_table_matches_payload_quality_1 :
  exists c,
    _convertImageToSJPG one_byte_strips 140 140 1 16 = Some c /\
    exists payloads,
      compressed_strips one_byte_strips 140 140 1 16 (declared_strip_count c)
        = Some payloads /\
      parts_of 140 16 = Some (declared_strip_count c) /\
      List.length (declared_lengths c) = Z.to_nat (declared_strip_count c) /\
      List.length payloads = Z.to_nat (declared_strip_count c) /\
      declared_lengths c = map (fun p => Z.of_nat (List.length p)) payloads /\
      strip_payload c = List.concat payloads /\
      sum (declared_lengths c) = Z.of_nat (List.length (strip_payload c)) /\
      List.length c =
        (22 + 2 * List.length (declared_lengths c) + List.length (strip_payload c))%nat.
Proof.
  eexists. split; [vm_compute; reflexivity|].
  apply (length_table_matches_payload one_byte_strips 140 140 1 16).
  vm_compute. reflexivity.
Defined.

(** * The hex encoder *)

(** What the encoder writes for one byte: two ASCII characters that are
    lower-case hexadecimal digits once lowered, worth the two nibbles. *)
Lemma hex_byte (b : byte) :
  let d1 := byte_of_ascii (b16digit (Z_of_byte b / 16)) in
  let d2 := byte_of_ascii (b16digit (Z_of_byte b mod 16)) in
  (Z_of_byte d1 <? 128) = true /\ (Z_of_byte d2 <? 128) = true /\
  is_lower_hex (lower_char (ascii_of_byte d1)) = true /\
  is_lower_hex (lower_char (ascii_of_byte d2)) = true /\
  hexval (lower_char (ascii_of_byte d1)) = Some (Z_of_byte b / 16) /\
  hexval (lower_char (ascii_of_byte d2)) = Some (Z_of_byte b mod 16).
Proof. destruct b; vm_compute; repeat split. Qed.

Lemma byte_of_nibbles (b : byte) :
  byte_of_Z (16 * (Z_of_byte b / 16) + Z_of_byte b mod 16) = b.
Proof.
  rewrite <- Z.div_mod by lia. apply byte_of_Z_of_byte.
Qed.

Lemma encode_roundtrip (s : bytes) :
  exists h,
    decode_ascii (b16encode s) = Some h /\
    String.length (lower h) = (2 * List.length s)%nat /\
    all_chars is_lower_hex (lower h) = true /\
    unhexlify (lower h) = Some s.
Proof.
  induction s as [|b s (h & E & L & A & U)].
  - exists "". repeat split.
  - destruct (hex_byte b) as (H1 & H2 & H3 & H4 & H5 & H6). cbv zeta in *.
    eexists. split.
    + unfold b16encode in *. cbn [flat_map app decode_ascii].
      rewrite H1, H2, E. cbn. reflexivity.
    + cbn [lower String.length List.length all_chars unhexlify].
      rewrite L, H3, H4, A, H5, H6, U. cbn [andb].
      split; [lia|]. split; [reflexivity|].
      cbv beta iota. rewrite byte_of_nibbles. reflexivity.
Qed.

(** C4.  For every byte sequence the hex encoder returns a string of
    lower-case hexadecimal digits, twice as long as the input, and hex
    decoding that string gives the input back. *)
Theorem hex_encoder_roundtrip (s : bytes) :
  exists h,
    _encodeSnapshot (Some s) = Some h /\
    String.length h = (2 * List.length s)%nat /\
    all_chars is_lower_hex h = true /\
    unhexlify h = Some s.
Proof.
  destruct (encode_roundtrip s) as (h & E & L & A & U).
  exists (lower h). unfold _encodeSnapshot. cbn. rewrite E. cbn.
  repeat split; assumption.
Qed.

(** * The thumbnail block builder *)

Lemma substring_skip (n i m : nat) (s : string) :
  substring (n + i) m s = substring i m (skip n s).
Proof.
  revert s. induction n as [|n IH]; intros s; [destruct s; reflexivity|].
  destruct s as [|c s]; cbn [skip Nat.add substring].
  - destruct i, m; reflexivity.
  - apply IH.
Qed.

Lemma skip_length (n : nat) (s : string) :
  String.length (skip n s) = (String.length s - n)%nat.
Proof.
  revert s. induction n as [|n IH]; intros [|c s]; cbn; try lia. apply IH.
Qed.

Lemma substring_0_length (n : nat) (s : string) :
  String.length (substring 0 n s) = Nat.min n (String.length s).
Proof.
  revert s. induction n as [|n IH]; intros [|c s]; cbn; try reflexivity.
  now rewrite IH.
Qed.

Lemma substring_skip_cat (n : nat) (s : string) :
  (substring 0 n s ++ skip n s)%string = s.
Proof.
  revert s. induction n as [|n IH]; intros [|c s]; cbn; try reflexivity.
  now rewrite IH.
Qed.

(** The slices the builder takes are the chunks of the string. *)
Lemma slices_chunks (n : nat) (fuel : nat) (s : string) :
  (0 < n)%nat -> (String.length s <= fuel)%nat ->
  map (fun k => substring (k * n) n s)
      (seq 0 (Z.to_nat ((Z.of_nat (String.length s) + Z.of_nat n - 1) / Z.of_nat n)))
  = chunks fuel n s.
Proof.
  intros Hn.
  assert (map (fun k => substring (k * n) n "")
            (seq 0 (Z.to_nat ((Z.of_nat (String.length "") + Z.of_nat n - 1) / Z.of_nat n)))
          = []) as Hempty.
  { cbn [String.length Z.of_nat]. rewrite Z.div_small by lia. reflexivity. }
  revert s. induction fuel as [|fuel IH]; intros s Hs.
  - destruct s; [exact Hempty|cbn in Hs; lia].
  - destruct s as [|c s].
    + exact Hempty.
    + cbn [chunks].
      set (l := String.length (String c s)).
      assert (l = S (String.length s)) as El by reflexivity.
      cbn [String.length] in Hs.
      assert (1 <= l)%nat as Hl by lia.
      assert (String.length (skip n (String c s)) = l - n)%nat as Hk by apply skip_length.
      assert (String.length (skip n (String c s)) <= fuel)%nat as Hf by lia.
      clearbody l.
      specialize (IH _ Hf). rewrite Hk in IH.
      assert ((Z.of_nat l + Z.of_nat n - 1) / Z.of_nat n
              = 1 + (Z.of_nat (l - n) + Z.of_nat n - 1) / Z.of_nat n) as E.
      { destruct (Nat.le_gt_cases n l) as [Hle|Hgt].
        - rewrite Nat2Z.inj_sub by assumption.
          replace (Z.of_nat l + Z.of_nat n - 1)
            with ((Z.of_nat l - Z.of_nat n + Z.of_nat n - 1) + 1 * Z.of_nat n) by lia.
          rewrite Z.div_add by lia. lia.
        - replace (l - n)%nat with 0%nat by lia. cbn [Z.of_nat].
          rewrite (Z.div_small (0 + Z.of_nat n - 1)) by lia.
          replace (Z.of_nat l + Z.of_nat n - 1)
            with ((Z.of_nat l - 1) + 1 * Z.of_nat n) by lia.
          rewrite Z.div_add by lia. rewrite Z.div_small by lia. lia. }
      rewrite E, Z2Nat.inj_add by (try apply Z.div_pos; lia).
      change (Z.to_nat 1) with 1%nat. cbn [Nat.add seq map Nat.mul].
      f_equal. rewrite <- seq_shift, map_map, <- IH.
      apply map_ext. intros k. cbn [Nat.mul]. apply substring_skip.
Qed.

Lemma cat_chunks (n fuel : nat) (s : string) :
  (0 < n)%nat -> (String.length s <= fuel)%nat -> cat (chunks fuel n s) = s.
Proof.
  intros Hn. revert s. induction fuel as [|fuel IH]; intros s Hs.
  - destruct s; [reflexivity|cbn in Hs; lia].
  - destruct s as [|c s]; [reflexivity|]. cbn [chunks cat fold_right].
    fold (cat (chunks fuel n (skip n (String c s)))).
    rewrite IH; [apply substring_skip_cat|].
    rewrite skip_length. cbn [String.length] in *. lia.
Qed.

Lemma chunks_full_but_last (n fuel : nat) (s : string) :
  (0 < n)%nat -> full_but_last n (chunks fuel n s).
Proof.
  intros Hn. revert s. induction fuel as [|fuel IH]; intros s; [exact I|].
  destruct s as [|c s]; [exact I|]. cbn [chunks].
  specialize (IH (skip n (String c s))).
  remember (String c s) as t eqn:Et.
  assert (1 <= String.length t)%nat as Ht by (subst t; cbn; lia).
  destruct fuel as [|fuel'].
  - cbn [chunks full_but_last]. rewrite substring_0_length. lia.
  - destruct (skip n t) as [|c' t'] eqn:Ek.
    + cbn [chunks full_but_last]. rewrite substring_0_length. lia.
    + cbn [chunks] in *. cbn [full_but_last]. split; [|exact IH].
      rewrite substring_0_length.
      pose proof (skip_length n t) as L. rewrite Ek in L. cbn in L. lia.
Qed.

Lemma data_payloads_data (cs : list string) (rest : list string) :
  data_payloads (map (fun c => ("W220 " ++ c)%string) cs ++ rest)
  = cs ++ data_payloads rest.
Proof.
  induction cs as [|c cs IH]; [reflexivity|].
  unfold data_payloads in *. cbn [map app flat_map]. rewrite IH.
  replace (data_payload ("W220 " ++ c)) with (Some c)
    by (destruct c; reflexivity).
  reflexivity.
Qed.

(** C5.  For every hex string and chunk size 80 the builder returns the
    line ["; thumbnail begin"], the line ["W221"], one line ["W220 "]
    followed by the chunk for each 80-character chunk of the string (the
    last chunk may be shorter), the line ["W222"], the line
    ["; thumbnail end"] and one empty line; the payloads of the data lines,
    concatenated in order, are the hex string. *)
Theorem thumbnail_block_lines (encoded_snapshot : string) :
  let cs := chunks (String.length encoded_snapshot) 80 encoded_snapshot in
  exists gcode,
    _convertSnapshotToGcode (Some encoded_snapshot) 80 = Ok gcode /\
    gcode = ["; thumbnail begin"; "W221"] ++
            map (fun c => ("W220 " ++ c)%string) cs ++
            ["W222"; "; thumbnail end"; ""] /\
    full_but_last 80 cs /\
    cat cs = encoded_snapshot /\
    data_payloads gcode = cs /\
    cat (data_payloads gcode) = encoded_snapshot.
Proof.
  intros cs.
  assert (cat cs = encoded_snapshot) as Hcat by (apply cat_chunks; lia).
  eexists. split; [|split; [reflexivity|]].
  - unfold _convertSnapshotToGcode, range_step.
    change (80 =? 0) with false. change (80 <? 0) with false. cbv iota.
    cbn [bind]. rewrite map_map.
    rewrite (map_ext _ (fun k => ("W220 " ++ substring (k * 80) 80 encoded_snapshot)%string)).
    2:{ intros k. unfold slice. f_equal.
        rewrite Z2Nat.inj_mul, Nat2Z.id by lia.
        replace (Z.of_nat k * 80 + 80 - Z.of_nat k * 80) with 80 by lia.
        reflexivity. }
    rewrite <- (map_map (fun k => substring (k * 80) 80 encoded_snapshot)
                        (fun c => ("W220 " ++ c)%string)).
    rewrite (slices_chunks 80 (String.length encoded_snapshot)) by lia.
    fold cs. rewrite <- !app_assoc. reflexivity.
  - split; [apply chunks_full_but_last; lia|]. split; [exact Hcat|].
    assert (data_payloads (["; thumbnail begin"; "W221"] ++
              map (fun c => ("W220 " ++ c)%string) cs ++
              ["W222"; "; thumbnail end"; ""]) = cs) as E.
    { change (data_payloads (["; thumbnail begin"; "W221"] ++ ?l))
        with (data_payloads l).
      rewrite data_payloads_data. cbn. apply app_nil_r. }
    rewrite E. split; [reflexivity|exact Hcat].
Qed.

(** * The loop over the lines of a layer *)

Lemma startswith_app (p s : string) : startswith (p ++ s)%string p = true.
Proof.
  unfold startswith. induction p as [|c p IH]; cbn.
  - destruct s; reflexivity.
  - destruct (ascii_dec c c); [exact IH|congruence].
Qed.

Lemma startswith_split (s p : string) :
  startswith s p = true -> exists r, s = (p ++ r)%string.
Proof.
  unfold startswith. revert s. induction p as [|c p IH]; intros s H.
  - exists s. reflexivity.
  - destruct s as [|d s]; cbn in H; [discriminate|].
    destruct (ascii_dec c d) as [<-|]; [|discriminate].
    destruct (IH s H) as (r & ->). exists r. reflexivity.
Qed.

Lemma filament_not_generator (line : string) :
  startswith line FILAMENT_USED = true -> startswith line GENERATED_WITH = false.
Proof.
  intros H. apply startswith_split in H. destruct H as (r & ->). reflexivity.
Qed.

Lemma infill_line_plain (x : string) : plain (";InfillDensity:" ++ x)%string.
Proof. split; reflexivity. Qed.

Lemma type_line_plain (x : string) : plain (";FilamentType:" ++ x)%string.
Proof. split; reflexivity. Qed.

Lemma used_line_plain (x : string) : plain (";FilamentUsed:" ++ x)%string.
Proof. split; reflexivity. Qed.

Lemma index_of_first (line : string) (done rest : list string) :
  Forall (fun l => l <> line) done ->
  index_of line (done ++ line :: rest) = Some (List.length done).
Proof.
  induction 1 as [|y done Hy _ IH]; cbn [app index_of List.length].
  - rewrite String.eqb_refl. reflexivity.
  - apply String.eqb_neq in Hy. rewrite Hy, IH. reflexivity.
Qed.

Lemma plain_differs (line : string) (done : list string) :
  Forall plain done ->
  startswith line FILAMENT_USED = true \/ startswith line GENERATED_WITH = true ->
  Forall (fun l => l <> line) done.
Proof.
  intros Hd Hl. eapply Forall_impl; [|exact Hd].
  intros l [H1 H2] ->. destruct Hl; congruence.
Qed.

Lemma setitem_at (done rest : list string) (y x : string) :
  setitem (done ++ y :: rest) (List.length done) x = Ok (done ++ x :: rest).
Proof.
  induction done as [|d done IH]; cbn [app List.length setitem]; [reflexivity|].
  rewrite IH. reflexivity.
Qed.

Lemma insert_at (done rest : list string) (x : string) :
  insert (List.length done) x (done ++ rest) = done ++ x :: rest.
Proof.
  unfold insert. rewrite firstn_app, skipn_app, firstn_all, skipn_all, Nat.sub_diag.
  cbn. rewrite app_nil_r. reflexivity.
Qed.

Lemma splice_after (done rest xs : list string) (y : string) :
  splice (S (List.length done)) xs (done ++ y :: rest) = done ++ y :: xs ++ rest.
Proof.
  unfold splice.
  replace (done ++ y :: rest) with ((done ++ [y]) ++ rest)
    by (rewrite <- app_assoc; reflexivity).
  replace (S (List.length done)) with (List.length (done ++ [y]))
    by (rewrite length_app; cbn; lia).
  rewrite firstn_app, skipn_app, firstn_all, skipn_all, Nat.sub_diag.
  cbn. rewrite app_nil_r, <- app_assoc. reflexivity.
Qed.

Lemma nth_error_middle (done rest : list string) (y : string) :
  nth_error (done ++ y :: rest) (List.length done) = Some y.
Proof.
  rewrite nth_error_app2, Nat.sub_diag by lia. reflexivity.
Qed.

(** The iterator passes over a plain line without touching the list. *)
Lemma scan_plain (fuel : nat) (material infill_density : option string)
    (snapshot_gcode : list string) (done rest : list string) (line : string) :
  plain line ->
  scan (S fuel) material infill_density snapshot_gcode
       (List.length done) (done ++ line :: rest)
  = scan fuel material infill_density snapshot_gcode
         (List.length (done ++ [line])) ((done ++ [line]) ++ rest).
Proof.
  intros [H1 H2]. cbn [scan]. rewrite nth_error_middle.
  unfold visit. rewrite H1, H2. cbn [bind].
  rewrite length_app, <- app_assoc. cbn [List.length app].
  rewrite Nat.add_1_r. reflexivity.
Qed.

(** The loop, with its content look-ups and its insertions under the
    iterator, is the single pass [walk]; three iterations per line are
    always enough. *)
Lemma scan_walk (material infill_density : option string)
    (snapshot_gcode : list string) (todo : list string) :
  forall (done : list string) (fuel : nat),
    Forall plain done ->
    (3 * List.length todo <= fuel)%nat ->
    scan fuel material infill_density snapshot_gcode
         (List.length done) (done ++ todo)
    = Some (r <~ walk material infill_density snapshot_gcode todo ;;
            Ok (done ++ r)).
Proof.
  induction todo as [|line rest IH]; intros done fuel Hdone Hfuel.
  - destruct fuel; cbn [scan walk bind];
      rewrite (proj2 (nth_error_None _ _)) by (rewrite length_app; cbn; lia);
      reflexivity.
  - cbn [List.length] in Hfuel.
    destruct fuel as [|fuel]; [lia|].
    destruct (startswith line FILAMENT_USED) eqn:Hf.
    + (* a filament-usage line *)
      pose proof (filament_not_generator line Hf) as Hg.
      cbn [scan walk]. rewrite nth_error_middle. unfold visit.
      rewrite Hf, Hg. unfold index.
      rewrite index_of_first by (apply plain_differs; auto).
      cbn [bind].
      destruct (rsplit1_last " " line) as [token|e]; cbn [bind]; [|reflexivity].
      destruct (float_of_str (remove_char "m" token)) as [amount_m|e];
        cbn [bind]; [|reflexivity].
      rewrite setitem_at. cbn [bind].
      destruct material as [material|]; cbn [load bind]; [|reflexivity].
      destruct infill_density as [infill_density|]; cbn [load bind]; [|reflexivity].
      rewrite insert_at, insert_at.
      set (li := (";InfillDensity:" ++ infill_density)%string).
      set (lt := (";FilamentType:" ++ material)%string).
      set (lu := (";FilamentUsed:" ++ format_2f (Float64.mul_int amount_m 1000))%string).
      replace (S (List.length done)) with (List.length (done ++ [li]))
        by (rewrite length_app; cbn; lia).
      replace (done ++ li :: lt :: lu :: rest) with ((done ++ [li]) ++ lt :: lu :: rest)
        by (rewrite <- app_assoc; reflexivity).
      destruct fuel as [|fuel]; [lia|].
      rewrite scan_plain by apply type_line_plain.
      destruct fuel as [|fuel]; [lia|].
      rewrite scan_plain by apply used_line_plain.
      rewrite IH.
      * cbn [load bind].
        destruct (walk (Some material) (Some infill_density) snapshot_gcode rest);
          cbn [bind]; [|reflexivity].
        rewrite <- !app_assoc. reflexivity.
      * repeat (apply Forall_app; split);
          first [ assumption
                | apply Forall_cons;
                  [ first [ apply infill_line_plain | apply type_line_plain
                          | apply used_line_plain ]
                  | apply Forall_nil ] ].
      * lia.
    + destruct (startswith line GENERATED_WITH) eqn:Hg.
      * (* the generator line *)
        cbn [scan walk]. rewrite nth_error_middle. unfold visit.
        rewrite Hf, Hg. cbn [bind]. unfold index.
        rewrite index_of_first by (apply plain_differs; auto).
        cbn [bind]. rewrite splice_after. reflexivity.
      * (* any other line *)
        rewrite scan_plain by (split; assumption).
        rewrite IH.
        -- cbn [walk]. rewrite Hf, Hg.
           destruct (walk material infill_density snapshot_gcode rest);
             cbn [bind]; [|reflexivity].
           rewrite <- app_assoc. reflexivity.
        -- apply Forall_app. split; [assumption|]. repeat constructor; assumption.
        -- lia.
Qed.

(** A layer is rewritten as the single pass says, and the loop always
    ends. *)
Lemma process_layer_walk (material infill_density : option string)
    (snapshot_gcode : list string) (text : string) :
  process_layer material infill_density snapshot_gcode text
  = Some (lines <~ walk material infill_density snapshot_gcode (split newline text) ;;
          Ok (join (String newline "") lines)).
Proof.
  unfold process_layer.
  pose proof (scan_walk material infill_density snapshot_gcode
                (split newline text) [] _ (Forall_nil _) (le_n _)) as E.
  cbn [List.length app] in E. rewrite E. cbn -[walk].
  destruct (walk _ _ _ _); reflexivity.
Qed.

(** The pass over lines without a generator line, followed by more lines. *)
Lemma walk_app (material infill_density : option string)
    (snapshot_gcode : list string) (pre rest : list string) :
  Forall (fun l => startswith l GENERATED_WITH = false) pre ->
  walk material infill_density snapshot_gcode (pre ++ rest)
  = (pre' <~ walk material infill_density snapshot_gcode pre ;;
     rest' <~ walk material infill_density snapshot_gcode rest ;;
     Ok (pre' ++ rest')).
Proof.
  induction 1 as [|line pre Hg _ IH]; cbn [app walk bind].
  - destruct (walk _ _ _ rest); reflexivity.
  - rewrite Hg, IH.
    destruct (startswith line FILAMENT_USED).
    + destruct (rsplit1_last " " line); cbn [bind]; [|reflexivity].
      destruct (float_of_str _); cbn [bind]; [|reflexivity].
      destruct (load material); cbn [bind]; [|reflexivity].
      destruct (load infill_density); cbn [bind]; [|reflexivity].
      destruct (walk _ _ _ pre); cbn [bind]; [|reflexivity].
      destruct (walk _ _ _ rest); reflexivity.
    + destruct (walk _ _ _ pre); cbn [bind]; [|reflexivity].
      destruct (walk _ _ _ rest); reflexivity.
Qed.

Lemma walk_plain (material infill_density : option string)
    (snapshot_gcode : list string) (lines : list string) :
  Forall plain lines ->
  walk material infill_density snapshot_gcode lines = Ok lines.
Proof.
  induction 1 as [|line lines [Hf Hg] _ IH]; cbn [walk]; [reflexivity|].
  rewrite Hf, Hg, IH. reflexivity.
Qed.

Lemma walk_no_filament (material infill_density : option string)
    (snapshot_gcode : list string) (lines : list string) :
  Forall (fun l => startswith l FILAMENT_USED = false) lines ->
  walk material infill_density snapshot_gcode lines
  = Ok (after_generator snapshot_gcode lines).
Proof.
  induction 1 as [|line lines Hf _ IH]; cbn [walk after_generator]; [reflexivity|].
  rewrite Hf, IH. destruct (startswith line GENERATED_WITH); reflexivity.
Qed.

(** * The loop over the layers *)

Lemma generator_not_filament (line : string) :
  startswith line GENERATED_WITH = true -> startswith line FILAMENT_USED = false.
Proof.
  intros H. apply startswith_split in H. destruct H as (r & ->). reflexivity.
Qed.

Lemma index_of_nth (x : string) (l : list string) (i : nat) :
  nth_error l i = Some x ->
  exists j, index_of x l = Some j /\ (j <= i)%nat /\ nth_error l j = Some x.
Proof.
  revert i. induction l as [|y l IH]; intros i H; [destruct i; discriminate|].
  cbn [index_of]. destruct (String.eqb y x) eqn:E.
  - apply String.eqb_eq in E. subst y. exists 0%nat. repeat split. lia.
  - destruct i as [|i]; cbn in H.
    + injection H as ->. rewrite String.eqb_refl in E. discriminate.
    + destruct (IH i H) as (j & -> & Hj & Hn). exists (S j).
      repeat split; [lia|exact Hn].
Qed.

Lemma setitem_nth (l : list string) (j : nat) (y x : string) :
  nth_error l j = Some y ->
  exists l', setitem l j x = Ok l' /\
             List.length l' = List.length l /\
             nth_error l' j = Some x /\
             forall k, k <> j -> nth_error l' k = nth_error l k.
Proof.
  revert j. induction l as [|z l IH]; intros j H; [destruct j; discriminate|].
  destruct j as [|j]; cbn [setitem].
  - eexists. repeat split. intros [|k] Hk; [congruence|reflexivity].
  - cbn in H. destruct (IH j H) as (l' & -> & Hlen & Hj & Hk).
    eexists. cbn [bind]. repeat split; cbn; [congruence|exact Hj|].
    intros [|k] Hne; [reflexivity|]. cbn. apply Hk. congruence.
Qed.

Lemma setitem_same (l : list string) (j : nat) (y : string) :
  nth_error l j = Some y -> setitem l j y = Ok l.
Proof.
  revert j. induction l as [|z l IH]; intros j H; [destruct j; discriminate|].
  destruct j as [|j]; cbn [setitem]; cbn in H.
  - congruence.
  - rewrite (IH j H). reflexivity.
Qed.

(** When the pass over the lines of layer [k] raises, so does the loop
    over the layers: layer [k] is still as it was when it is reached. *)
Lemma layer_loop_raises (material infill_density : option string)
    (snapshot_gcode : list string) (n : nat) :
  forall (i : nat) (data : list string) (k : nat) (text : string) (e : exn),
    (i <= k < i + n)%nat ->
    nth_error data k = Some text ->
    walk material infill_density snapshot_gcode (split newline text) = Raise e ->
    exists e', layer_loop material infill_density snapshot_gcode (seq i n) data
               = Some (Raise e').
Proof.
  induction n as [|n IH]; intros i data k text e Hk Ht Hw; [lia|].
  cbn [seq layer_loop].
  assert (i < List.length data)%nat as Hi.
  { assert (k < List.length data)%nat by (apply nth_error_Some; congruence). lia. }
  destruct (nth_error data i) as [layer|] eqn:Hl;
    [|apply nth_error_None in Hl; lia].
  destruct (index_of_nth layer data i Hl) as (j & Hj & Hji & Hnj).
  unfold index, getitem. rewrite Hj. cbn [bind]. rewrite Hnj. cbn [bind].
  rewrite process_layer_walk. cbn -[walk setitem split].
  destruct (Nat.eq_dec i k) as [->|Hne].
  - assert (layer = text) as -> by congruence.
    rewrite Hw. cbn. eauto.
  - destruct (walk material infill_density snapshot_gcode (split newline layer))
      as [lines|e0]; cbn [bind]; [|eauto].
    destruct (setitem_nth data j layer (join (String newline "") lines) Hnj)
      as (data' & -> & _ & _ & Hsame).
    apply (IH (S i) data' k text e); [lia| |exact Hw].
    rewrite Hsame by lia. exact Ht.
Qed.

(** Layers the pass leaves as they are stay as they are. *)
Lemma layer_loop_fixed (material infill_density : option string)
    (snapshot_gcode : list string) (data : list string) (ixs : list nat) :
  (forall text, In text data ->
     process_layer material infill_density snapshot_gcode text = Some (Ok text)) ->
  layer_loop material infill_density snapshot_gcode ixs data = Some (Ok data).
Proof.
  intros H. induction ixs as [|i ixs IH]; cbn [layer_loop]; [reflexivity|].
  destruct (nth_error data i) as [layer|] eqn:Hl; [|reflexivity].
  destruct (index_of_nth layer data i Hl) as (j & Hj & _ & Hnj).
  unfold index, getitem. rewrite Hj. cbn [bind]. rewrite Hnj. cbn [bind].
  rewrite (H layer) by (eapply nth_error_In; eassumption).
  cbn [bind]. rewrite (setitem_same data j layer Hnj). exact IH.
Qed.

Lemma walk_filament_unbound (material infill_density : option string)
    (snapshot_gcode : list string) (line : string) (post : list string) :
  startswith line FILAMENT_USED = true ->
  material = None \/ infill_density = None ->
  exists e, walk material infill_density snapshot_gcode (line :: post) = Raise e.
Proof.
  intros Hf Hs. cbn [walk]. rewrite Hf.
  destruct (rsplit1_last " " line); cbn [bind]; [|eauto].
  destruct (float_of_str _); cbn [bind]; [|eauto].
  destruct material; cbn [load bind]; [|eauto].
  destruct infill_density; cbn [load bind]; [|eauto].
  destruct Hs; discriminate.
Qed.

Lemma walk_raises_after (material infill_density : option string)
    (snapshot_gcode : list string) (pre rest : list string) (e : exn) :
  Forall (fun l => startswith l GENERATED_WITH = false) pre ->
  walk material infill_density snapshot_gcode rest = Raise e ->
  exists e', walk material infill_density snapshot_gcode (pre ++ rest) = Raise e'.
Proof.
  intros Hpre Hr. rewrite walk_app by assumption. rewrite Hr.
  destruct (walk _ _ _ pre); cbn; eauto.
Qed.

(** Once a snapshot is there, [execute] raises as soon as the pass over
    one layer does, whatever the thumbnail block. *)
Lemma execute_raises (h : host) (data : list string) (snapshot : QImage)
    (k : nat) (text : string) :
  _createSnapshot h THUMBNAIL_WIDTH THUMBNAIL_HEIGHT = Some snapshot ->
  nth_error data k = Some text ->
  (forall snapshot_gcode, exists e,
     walk (fst (print_settings h)) (snd (print_settings h)) snapshot_gcode
          (split newline text) = Raise e) ->
  exists e, execute h data = Some (Raise e).
Proof.
  intros Hs Ht Hw. unfold execute.
  destruct (print_settings h) as [material infill_density]. cbn [fst snd] in Hw.
  cbv zeta. rewrite Hs.
  destruct (_convertSnapshotToGcode _ 80) as [snapshot_gcode|e]; [|eauto].
  destruct (Hw snapshot_gcode) as (e & He).
  apply (layer_loop_raises material infill_density snapshot_gcode _ 0 data k text e);
    [|assumption|assumption].
  assert (k < List.length data)%nat by (apply nth_error_Some; congruence). lia.
Qed.

(** ** The claims on the injector *)

(** C6, as the code has it.  Once the thumbnail block is built and the
    print settings are read, in a layer segment whose only filament-usage
    line has the value ["12.500m"] and comes after plain lines only, that
    line becomes [";FilamentUsed:12500.00"], with the infill-density line
    and then the material line right before it; the other lines stay,
    the thumbnail block apart. *)
Theorem filament_marker_rewritten
    (material infill_density : string) (snapshot_gcode : list string)
    (text : string) (pre : list string) (line : string) (post : list string) :
  split newline text = pre ++ line :: post ->
  Forall plain pre ->
  startswith line FILAMENT_USED = true ->
  rsplit1_last " " line = Ok "12.500m" ->
  Forall (fun l => startswith l FILAMENT_USED = false) post ->
  process_layer (Some material) (Some infill_density) snapshot_gcode text
  = Some (Ok (join (String newline "")
                (pre ++
                 [(";InfillDensity:" ++ infill_density)%string;
                  (";FilamentType:" ++ material)%string;
                  ";FilamentUsed:12500.00"] ++
                 after_generator snapshot_gcode post))).
Proof.
  intros Hsplit Hpre Hf Htok Hpost.
  rewrite process_layer_walk, Hsplit, walk_app.
  2:{ eapply Forall_impl; [|exact Hpre]. intros l [_ Hg]. exact Hg. }
  rewrite walk_plain by assumption. cbn [bind walk].
  rewrite Hf, Htok. cbn [bind].
  replace (float_of_str (remove_char "m" "12.500m"))
    with (Ok (Float64.Ffin false 7036874417766400 (-49))) by (vm_compute; reflexivity).
  cbn [bind load]. rewrite walk_no_filament by assumption. cbn [bind].
  replace (format_2f (Float64.mul_int (Float64.Ffin false 7036874417766400 (-49)) 1000))
    with "12500.00" by (vm_compute; reflexivity).
  reflexivity.
Qed.

Lemma filament_marker_rewritten_sample :
  process_layer (Some "PLA") (Some "20") ["W221"; "W222"]
    (String.concat (String newline "")
       [";FLAVOR:Marlin"; ";Filament used: 12.500m"; ";Generated with Cura"; "G28"])
  = Some (Ok (String.concat (String newline "")
       [";FLAVOR:Marlin"; ";InfillDensity:20"; ";FilamentType:PLA";
        ";FilamentUsed:12500.00"; ";Generated with Cura"; "W221"; "W222"; "G28"])).
Proof.
  apply (filament_marker_rewritten "PLA" "20" ["W221"; "W222"] _
           [";FLAVOR:Marlin"] ";Filament used: 12.500m"
           [";Generated with Cura"; "G28"]).
  - reflexivity.
  - repeat constructor.
  - reflexivity.
  - reflexivity.
  - repeat constructor.
Defined.

(** C6 as the specification words it fails: behind a generator line the
    marker line is left as it is. *)
Lemma filament_marker_behind_generator :
  exists out,
    execute good_host [(";Generated with Cura_SteamEngine 5.0" ++ String newline
                        ";Filament used: 12.500m")%string]
      = Some (Ok [out]) /\
    has_line ";Filament used: 12.500m" out = true /\
    has_line ";FilamentUsed:12500.00" out = false.
Proof. eexists. split; [vm_compute; reflexivity|]. split; reflexivity. Qed.

(** C7, as the code has it.  When the print settings could not be read
    and a snapshot was taken, a filament-usage line that no generator
    line precedes in its layer makes [execute] raise. *)
Theorem metadata_failure_escapes (h : host) (data : list string)
    (snapshot : QImage) (k : nat) (text : string)
    (pre : list string) (line : string) (post : list string) :
  fst (print_settings h) = None \/ snd (print_settings h) = None ->
  _createSnapshot h THUMBNAIL_WIDTH THUMBNAIL_HEIGHT = Some snapshot ->
  nth_error data k = Some text ->
  split newline text = pre ++ line :: post ->
  Forall (fun l => startswith l GENERATED_WITH = false) pre ->
  startswith line FILAMENT_USED = true ->
  exists e, execute h data = Some (Raise e).
Proof.
  intros Hset Hs Ht Hsplit Hpre Hf.
  apply (execute_raises h data snapshot k text Hs Ht).
  intros snapshot_gcode. rewrite Hsplit.
  destruct (walk_filament_unbound (fst (print_settings h)) (snd (print_settings h))
              snapshot_gcode line post Hf Hset) as (e & He).
  apply (walk_raises_after _ _ _ pre _ e); assumption.
Qed.

Lemma metadata_failure_escapes_two_extruders :
  print_settings two_extruder_host = (None, None) /\
  execute two_extruder_host [";Filament used: 1.5m"] = Some (Raise UnboundLocalError) /\
  exists e, execute two_extruder_host [";Filament used: 1.5m"] = Some (Raise e).
Proof.
  split; [reflexivity|]. split; [vm_compute; reflexivity|].
  apply (metadata_failure_escapes two_extruder_host [";Filament used: 1.5m"]
           one_byte_strips 0 ";Filament used: 1.5m" [] ";Filament used: 1.5m" []).
  - left. reflexivity.
  - reflexivity.
  - reflexivity.
  - reflexivity.
  - constructor.
  - reflexivity.
Defined.

(** C8, as the code has it.  When the snapshot is taken but cannot be
    converted, [execute] raises a [TypeError], whatever the document. *)
Theorem conversion_failure_escapes (h : host) (data : list string)
    (snapshot : QImage) :
  _createSnapshot h THUMBNAIL_WIDTH THUMBNAIL_HEIGHT = Some snapshot ->
  _convertImageToSJPG snapshot THUMBNAIL_WIDTH THUMBNAIL_HEIGHT (quality_setting h) 16
    = None ->
  execute h data = Some (Raise TypeError).
Proof.
  intros Hs Hc. unfold execute. destruct (print_settings h) as [m i].
  cbv zeta. rewrite Hs, Hc. reflexivity.
Qed.

Lemma conversion_failure_escapes_broken_image :
  execute broken_image_host [";Generated with Cura"; "G28"] = Some (Raise TypeError).
Proof.
  apply (conversion_failure_escapes broken_image_host _ broken_image).
  - reflexivity.
  - vm_compute. reflexivity.
Defined.

(** C9, as the code has it.  There is one scan per layer segment, and it
    ends at the first generator line: the lines before it are scanned
    for filament-usage lines, the thumbnail block is put after it, and
    the lines after it are left as they are, filament-usage lines
    included. *)
Theorem scan_ends_at_generator
    (material infill_density : option string) (snapshot_gcode : list string)
    (text : string) (pre : list string) (line : string) (post : list string) :
  split newline text = pre ++ line :: post ->
  Forall (fun l => startswith l GENERATED_WITH = false) pre ->
  startswith line GENERATED_WITH = true ->
  process_layer material infill_density snapshot_gcode text
  = Some (pre' <~ walk material infill_density snapshot_gcode pre ;;
          Ok (join (String newline "") (pre' ++ line :: snapshot_gcode ++ post))).
Proof.
  intros Hsplit Hpre Hg.
  rewrite process_layer_walk, Hsplit, walk_app by assumption.
  cbn [walk]. rewrite (generator_not_filament line Hg), Hg.
  destruct (walk _ _ _ pre); reflexivity.
Qed.

Lemma scan_ends_at_generator_sample :
  process_layer (Some "PLA") (Some "20") ["W221"; "W222"]
    (String.concat (String newline "")
       [";Filament used: 1m"; ";Generated with Cura"; ";Filament used: 2m"])
  = Some (Ok (String.concat (String newline "")
       [";InfillDensity:20"; ";FilamentType:PLA"; ";FilamentUsed:1000.00";
        ";Generated with Cura"; "W221"; "W222"; ";Filament used: 2m"])).
Proof.
  rewrite (scan_ends_at_generator (Some "PLA") (Some "20") ["W221"; "W222"] _
             [";Filament used: 1m"] ";Generated with Cura" [";Filament used: 2m"]).
  - vm_compute. reflexivity.
  - reflexivity.
  - repeat constructor.
  - reflexivity.
Defined.

(** C9 as the specification words it fails: a filament-usage line after
    the generator line of its segment is not processed. *)
Lemma filament_marker_after_generator_ignored :
  exists out,
    execute good_host [(";Generated with Cura" ++ String newline
                        ";Filament used: 2.000m")%string]
      = Some (Ok [out]) /\
    has_line ";Filament used: 2.000m" out = true /\
    has_line ";FilamentUsed:2000.00" out = false.
Proof. eexists. split; [vm_compute; reflexivity|]. split; reflexivity. Qed.

(** C10, as the code has it.  When a snapshot was taken, a filament-usage
    line whose last token is made of ASCII characters and is not a number
    once its [m]s are deleted, and that no generator line precedes in its
    layer, makes [execute] raise. *)
Theorem bad_filament_value_raises (h : host) (data : list string)
    (snapshot : QImage) (k : nat) (text : string)
    (pre : list string) (line : string) (post : list string) (token : string) :
  _createSnapshot h THUMBNAIL_WIDTH THUMBNAIL_HEIGHT = Some snapshot ->
  nth_error data k = Some text ->
  split newline text = pre ++ line :: post ->
  Forall (fun l => startswith l GENERATED_WITH = false) pre ->
  startswith line FILAMENT_USED = true ->
  rsplit1_last " " line = Ok token ->
  all_chars is_ascii token = true ->
  float_of_str (remove_char "m" token) = Raise ValueError ->
  exists e, execute h data = Some (Raise e).
Proof.
  intros Hs Ht Hsplit Hpre Hf Htok _ Hval.
  apply (execute_raises h data snapshot k text Hs Ht).
  intros snapshot_gcode. rewrite Hsplit.
  apply (walk_raises_after _ _ _ pre _ ValueError); [assumption|].
  cbn [walk]. rewrite Hf, Htok. cbn [bind]. rewrite Hval. reflexivity.
Qed.

Lemma bad_filament_value_raises_sample :
  execute good_host ["G28"; ";Filament used: N/A"] = Some (Raise ValueError) /\
  exists e, execute good_host ["G28"; ";Filament used: N/A"] = Some (Raise e).
Proof.
  split; [vm_compute; reflexivity|].
  apply (bad_filament_value_raises good_host _ one_byte_strips 1
           ";Filament used: N/A" [] ";Filament used: N/A" [] "N/A").
  - reflexivity.
  - reflexivity.
  - reflexivity.
  - constructor.
  - reflexivity.
  - reflexivity.
  - reflexivity.
  - vm_compute. reflexivity.
Defined.

(** C10 as the specification words it fails: without a snapshot, or
    behind a generator line, the line is never looked at and nothing is
    raised. *)
Lemma bad_filament_value_not_reached :
  execute no_snapshot_host [";Filament used: N/A"]
    = Some (Ok [";Filament used: N/A"]) /\
  exists out,
    execute good_host [(";Generated with Cura" ++ String newline
                        ";Filament used: N/A")%string]
      = Some (Ok [out]) /\
    has_line ";Filament used: N/A" out = true.
Proof.
  split; [reflexivity|]. eexists. split; [vm_compute; reflexivity|]. reflexivity.
Qed.

(** * More on the encoder *)

Lemma all_some_In {A} (l : list (option A)) (xs : list A) :
  all_some l = Some xs -> ~ In None l.
Proof.
  revert xs. induction l as [|o l IH]; intros xs H [].
  - subst o. discriminate.
  - cbn in H. destruct o; [|discriminate].
    destruct (all_some l) eqn:E; [|discriminate]. eapply IH; eauto.
Qed.

(** X1.  When one strip cannot be compressed the encoder returns no container
    at all, however many strips were compressed before it. *)
Theorem strip_failure_no_container
    (snapshot : QImage) (width height quality fragment_height parts i : Z) :
  parts_of height fragment_height = Some parts ->
  0 <= i < parts ->
  snapshot (Rect 0 (i * fragment_height) width
                 (Z.min (height - i * fragment_height) fragment_height)) quality
    = None ->
  _convertImageToSJPG snapshot width height quality fragment_height = None.
Proof.
  intros Hp Hi Hfail.
  destruct (_convertImageToSJPG snapshot width height quality fragment_height)
    as [c|] eqn:E; [|reflexivity].
  apply convert_unfold in E.
  destruct E as (parts' & ps & Hp' & Hps & _).
  assert (parts' = parts) as -> by congruence.
  exfalso. apply (all_some_In _ _ Hps).
  apply in_map_iff. exists i. split; [exact Hfail|].
  unfold range. apply in_map_iff. exists (Z.to_nat i).
  split; [lia|]. apply in_seq. lia.
Qed.

Lemma strip_failure_no_container_row_48 :
  _convertImageToSJPG fails_at_row_48 140 140 30 16 = None.
Proof.
  apply (strip_failure_no_container fails_at_row_48 140 140 30 16 9 3).
  - vm_compute. reflexivity.
  - lia.
  - reflexivity.
Defined.

Lemma all_some_In_Some {A} (l : list (option A)) (xs : list A) (x : A) :
  all_some l = Some xs -> In (Some x) l -> In x xs.
Proof.
  revert xs. induction l as [|o l IH]; intros xs H Hin; [destruct Hin|].
  cbn in H. destruct o as [y|]; [|discriminate].
  destruct (all_some l) as [ys|] eqn:E; [|discriminate].
  injection H as <-. destruct Hin as [Hy|Hin].
  - injection Hy as ->. left. reflexivity.
  - right. apply (IH ys eq_refl Hin).
Qed.

(** X2.  A container is returned only when the width, the height and the
    fragment height fit their 2-byte fields, the fragment height being
    positive, the strip count fits, and every strip the image gives is
    compressed to fewer than 65536 bytes: no field is ever truncated. *)
Theorem container_fields_fit
    (snapshot : QImage) (width height quality fragment_height : Z) (c : bytes) :
  _convertImageToSJPG snapshot width height quality fragment_height = Some c ->
  0 <= width < 65536 /\ 0 <= height < 65536 /\ 0 < fragment_height < 65536 /\
  0 <= ceil_div height fragment_height < 65536 /\
  forall (i : Z) (p : bytes),
    0 <= i < ceil_div height fragment_height ->
    snapshot (Rect 0 (i * fragment_height) width
                   (Z.min (height - i * fragment_height) fragment_height)) quality
      = Some p ->
    Z.of_nat (List.length p) < 65536.
Proof.
  intros Hc. apply convert_unfold in Hc.
  destruct Hc as (parts & ps & Hparts & Hps & Hw & Hh & Hp & Hf & Hl & _).
  assert (0 < fragment_height) as HF.
  { destruct (Z.eq_dec fragment_height 0) as [->|]; [|unfold fits16 in Hf; lia].
    unfold parts_of, Float64.int_truediv in Hparts. cbn in Hparts. discriminate. }
  assert (parts = ceil_div height fragment_height) as ->.
  { rewrite parts_of_exact in Hparts by (unfold fits16 in *; cbn; lia).
    congruence. }
  unfold fits16 in *. repeat (split; [lia|]).
  intros i p Hi Hp'.
  assert (In p ps) as Hin.
  { apply (all_some_In_Some _ _ _ Hps). apply in_map_iff. exists i.
    split; [exact Hp'|]. unfold range. apply in_map_iff. exists (Z.to_nat i).
    split; [lia|]. apply in_seq. lia. }
  rewrite Forall_forall in Hl. apply (Hl p Hin).
Qed.

Lemma container_fields_fit_sample :
  (exists c, _convertImageToSJPG one_byte_strips 140 140 30 16 = Some c /\
             0 < 16 < 65536 /\ 0 <= ceil_div 140 16 < 65536) /\
  _convertImageToSJPG long_strips 140 140 30 16 = None.
Proof.
  split.
  - eexists. split; [vm_compute; reflexivity|].
    destruct (container_fields_fit one_byte_strips 140 140 30 16 _ eq_refl)
      as (_ & _ & H3 & H4 & _).
    split; [exact H3|exact H4].
  - destruct (_convertImageToSJPG long_strips 140 140 30 16) as [c|] eqn:E;
      [|reflexivity].
    destruct (container_fields_fit long_strips 140 140 30 16 c E)
      as (_ & _ & _ & _ & H5).
    specialize (H5 0 (repeat x00 (Z.to_nat 65536)) ltac:(vm_compute; split; congruence) eq_refl).
    rewrite repeat_length, Z2Nat.id in H5 by lia. lia.
Defined.

(** X3.  Every container starts with the tag and the version between two null
    bytes, and the width, the height and the fragment height are read
    back from the offsets 14, 16 and 20. *)
Theorem header_fields_read_back
    (snapshot : QImage) (width height quality fragment_height : Z) (c : bytes) :
  _convertImageToSJPG snapshot width height quality fragment_height = Some c ->
  firstn 14 c = encode "_SJPG__" ++ [x00] ++ encode "V1.00" ++ [x00] /\
  u16_at c 14 = width /\ u16_at c 16 = height /\ u16_at c 20 = fragment_height.
Proof.
  intros Hc. apply convert_unfold in Hc.
  destruct Hc as (parts & ps & _ & _ & Hw & Hh & Hp & Hf & _ & ->).
  unfold sjpg_layout. split; [reflexivity|].
  set (tag := encode "_SJPG__" ++ [x00] ++ encode "V1.00" ++ [x00]).
  set (rest := flat_map (fun p => le16 (Z.of_nat (List.length p))) ps ++ List.concat ps).
  split; [|split].
  - change (u16_at (tag ++ le16 width ++ le16 height ++ le16 parts ++
                    le16 fragment_height ++ rest) (List.length tag + 0) = width).
    rewrite u16_at_app. apply u16_at_le16. exact Hw.
  - change (u16_at ((tag ++ le16 width) ++ le16 height ++ le16 parts ++
                    le16 fragment_height ++ rest)
                   (List.length (tag ++ le16 width) + 0) = height).
    rewrite u16_at_app. apply u16_at_le16. exact Hh.
  - change (u16_at ((tag ++ le16 width ++ le16 height ++ le16 parts) ++
                    le16 fragment_height ++ rest)
                   (List.length (tag ++ le16 width ++ le16 height ++ le16 parts) + 0)
            = fragment_height).
    rewrite u16_at_app. apply u16_at_le16. exact Hf.
Qed.

Lemma header_fields_read_back_sample :
  exists c, _convertImageToSJPG one_byte_strips 140 100 30 16 = Some c /\
            u16_at c 14 = 140 /\ u16_at c 16 = 100 /\ u16_at c 20 = 16.
Proof.
  eexists. split; [vm_compute; reflexivity|].
  apply (header_fields_read_back one_byte_strips 140 100 30 16 _ eq_refl).
Defined.

(** * More on the hex encoder *)

Lemma decode_ascii_app (a b : bytes) (sa sb : string) :
  decode_ascii a = Some sa -> decode_ascii b = Some sb ->
  decode_ascii (a ++ b) = Some (sa ++ sb)%string.
Proof.
  revert sa. induction a as [|x a IH]; intros sa Ha Hb; cbn in *.
  - injection Ha as <-. exact Hb.
  - destruct (Z_of_byte x <? 128); [|discriminate].
    destruct (decode_ascii a) as [s|]; [|discriminate].
    injection Ha as <-. rewrite (IH s eq_refl Hb). reflexivity.
Qed.

Lemma lower_app (a b : string) : lower (a ++ b) = (lower a ++ lower b)%string.
Proof. induction a as [|c a IH]; cbn; [reflexivity|]. rewrite IH. reflexivity. Qed.

(** X4.  The hex text of a concatenation is the concatenation of the hex
    texts. *)
Theorem hex_of_concatenation (a b : bytes) :
  exists ha hb,
    _encodeSnapshot (Some a) = Some ha /\
    _encodeSnapshot (Some b) = Some hb /\
    _encodeSnapshot (Some (a ++ b)) = Some (ha ++ hb)%string.
Proof.
  destruct (encode_roundtrip a) as (ua & Ea & _).
  destruct (encode_roundtrip b) as (ub & Eb & _).
  exists (lower ua), (lower ub). unfold _encodeSnapshot. cbn [bind].
  assert (b16encode (a ++ b) = b16encode a ++ b16encode b) as E
    by (unfold b16encode; apply flat_map_app).
  cbn. rewrite Ea, Eb, E, (decode_ascii_app _ _ _ _ Ea Eb). cbn.
  rewrite lower_app. repeat split.
Qed.

(** X5.  Two different byte sequences never get the same hex text. *)
Theorem hex_encoder_injective (a b : bytes) :
  a <> b -> _encodeSnapshot (Some a) <> _encodeSnapshot (Some b).
Proof.
  intros Hne E.
  destruct (encode_roundtrip a) as (ua & Ea & _ & _ & Ua).
  destruct (encode_roundtrip b) as (ub & Eb & _ & _ & Ub).
  unfold _encodeSnapshot in E. cbn in E. rewrite Ea, Eb in E. cbn in E.
  injection E as E. rewrite E in Ua. congruence.
Qed.

Lemma hex_encoder_injective_sample :
  _encodeSnapshot (Some [x00; x01]) <> _encodeSnapshot (Some [x00; x10]).
Proof.
  apply (hex_encoder_injective [x00; x01] [x00; x10]). discriminate.
Defined.

(** * More on the thumbnail block builder *)

Lemma builder_chunks (encoded_snapshot : string) (n : nat) :
  (0 < n)%nat ->
  _convertSnapshotToGcode (Some encoded_snapshot) (Z.of_nat n)
  = Ok (framed (map (fun c => ("W220 " ++ c)%string)
                    (chunks (String.length encoded_snapshot) n encoded_snapshot))).
Proof.
  intros Hn. unfold _convertSnapshotToGcode, range_step.
  destruct (Z.eqb_spec (Z.of_nat n) 0) as [|_]; [lia|].
  destruct (Z.ltb_spec (Z.of_nat n) 0) as [|_]; [lia|].
  cbn [bind]. rewrite map_map.
  rewrite (map_ext _ (fun k => ("W220 " ++ substring (k * n) n encoded_snapshot)%string)).
  2:{ intros k. unfold slice. f_equal.
      rewrite <- Nat2Z.inj_mul, Nat2Z.id.
      replace (Z.of_nat (k * n) + Z.of_nat n - Z.of_nat (k * n)) with (Z.of_nat n) by lia.
      rewrite Nat2Z.id. reflexivity. }
  rewrite <- (map_map (fun k => substring (k * n) n encoded_snapshot)
                      (fun c => ("W220 " ++ c)%string)).
  rewrite (slices_chunks n (String.length encoded_snapshot)) by lia.
  unfold framed. rewrite <- !app_assoc. reflexivity.
Qed.

Lemma chunks_length (n fuel : nat) (s : string) :
  (0 < n)%nat -> (String.length s <= fuel)%nat ->
  Z.of_nat (List.length (chunks fuel n s))
  = ceil_div (Z.of_nat (String.length s)) (Z.of_nat n).
Proof.
  intros Hn Hs. rewrite <- (slices_chunks n fuel s Hn Hs), length_map, length_seq.
  unfold ceil_div.
  set (l := Z.of_nat (String.length s)). set (m := Z.of_nat n).
  assert (0 <= l) by (unfold l; lia). assert (0 < m) by (unfold m; lia).
  rewrite Z2Nat.id by (apply Z.div_pos; lia).
  assert ((l + m - 1) / m = - (- l / m)) as E; [|exact E].
  pose proof (Z.div_mod (l + m - 1) m ltac:(lia)).
  pose proof (Z.mod_pos_bound (l + m - 1) m ltac:(lia)).
  pose proof (Z.div_mod (- l) m ltac:(lia)).
  pose proof (Z.mod_pos_bound (- l) m ltac:(lia)).
  nia.
Qed.

(** X6.  With a chunk size of zero the builder raises a [ValueError]; with a
    negative one it returns the five framing lines and no data line. *)
Theorem nonpositive_chunk_size (encoded_snapshot : string) (chunk_size : Z) :
  chunk_size <= 0 ->
  _convertSnapshotToGcode (Some encoded_snapshot) chunk_size
  = if chunk_size =? 0 then Raise ValueError
    else Ok ["; thumbnail begin"; "W221"; "W222"; "; thumbnail end"; ""].
Proof.
  intros H. unfold _convertSnapshotToGcode, range_step.
  destruct (Z.eqb_spec chunk_size 0) as [|Hne]; [reflexivity|].
  destruct (Z.ltb_spec chunk_size 0) as [|]; [reflexivity|lia].
Qed.

Lemma nonpositive_chunk_size_sample :
  _convertSnapshotToGcode (Some "0a1b") 0 = Raise ValueError /\
  _convertSnapshotToGcode (Some "0a1b") (-2)
  = Ok ["; thumbnail begin"; "W221"; "W222"; "; thumbnail end"; ""].
Proof.
  split.
  - apply (nonpositive_chunk_size "0a1b" 0). lia.
  - apply (nonpositive_chunk_size "0a1b" (-2)). lia.
Defined.

(** X7.  For every positive chunk size the block is the framing lines around
    one data line per chunk, every chunk but the last of the full size;
    there are [ceil (len / chunk_size)] data lines, and their payloads
    concatenate to the text. *)
Theorem thumbnail_block_any_chunk_size (encoded_snapshot : string) (chunk_size : Z) :
  0 < chunk_size ->
  let cs := chunks (String.length encoded_snapshot) (Z.to_nat chunk_size)
                   encoded_snapshot in
  _convertSnapshotToGcode (Some encoded_snapshot) chunk_size
    = Ok (framed (map (fun c => ("W220 " ++ c)%string) cs)) /\
  full_but_last (Z.to_nat chunk_size) cs /\
  Z.of_nat (List.length cs)
    = ceil_div (Z.of_nat (String.length encoded_snapshot)) chunk_size /\
  data_payloads (framed (map (fun c => ("W220 " ++ c)%string) cs)) = cs /\
  cat cs = encoded_snapshot.
Proof.
  intros Hk cs.
  assert (0 < Z.to_nat chunk_size)%nat as Hn by lia.
  split; [|split; [|split; [|split]]].
  - rewrite <- (Z2Nat.id chunk_size) at 1 by lia. apply builder_chunks. exact Hn.
  - apply chunks_full_but_last. exact Hn.
  - unfold cs. rewrite chunks_length by lia. rewrite Z2Nat.id by lia. reflexivity.
  - unfold framed.
    change (data_payloads (["; thumbnail begin"; "W221"] ++ ?l))
      with (data_payloads l).
    rewrite data_payloads_data. cbn. apply app_nil_r.
  - apply cat_chunks; lia.
Qed.

Lemma thumbnail_block_any_chunk_size_sample :
  _convertSnapshotToGcode (Some "0123456789") 4
  = Ok ["; thumbnail begin"; "W221"; "W220 0123"; "W220 4567"; "W220 89";
        "W222"; "; thumbnail end"; ""].
Proof.
  apply (thumbnail_block_any_chunk_size "0123456789" 4). lia.
Defined.

(** * The three stages together *)

(** X8.  For every container, the data lines of the block built from its hex
    text decode back to the container. *)
Theorem thumbnail_block_decodes_to_container (c : bytes) :
  exists h gcode,
    _encodeSnapshot (Some c) = Some h /\
    _convertSnapshotToGcode (Some h) 80 = Ok gcode /\
    unhexlify (cat (data_payloads gcode)) = Some c.
Proof.
  destruct (encode_roundtrip c) as (u & E & _ & _ & U).
  exists (lower u). eexists. split; [|split].
  - unfold _encodeSnapshot. cbn. rewrite E. reflexivity.
  - apply (builder_chunks (lower u) 80). lia.
  - unfold framed.
    change (data_payloads (["; thumbnail begin"; "W221"] ++ ?l))
      with (data_payloads l).
    rewrite data_payloads_data. cbn [data_payloads flat_map data_payload].
    change (data_payloads ["W222"; "; thumbnail end"; ""]) with (@nil string).
    rewrite app_nil_r, cat_chunks by lia. exact U.
Qed.

(** * More on the injector *)

Lemma split_nonempty (sep : ascii) (s : string) : split sep s <> [].
Proof.
  destruct s as [|c s]; cbn; [discriminate|].
  destruct (Ascii.eqb c sep); [discriminate|].
  destruct (split sep s); discriminate.
Qed.

Lemma join_split (text : string) :
  join (String newline "") (split newline text) = text.
Proof.
  unfold join. induction text as [|c s IH]; [reflexivity|].
  cbn [split]. pose proof (split_nonempty newline s) as Hne.
  destruct (split newline s) as [|y ys]; [congruence|].
  destruct (Ascii.eqb c newline) eqn:E.
  - apply Ascii.eqb_eq in E. subst c.
    change (String.concat (String newline "") ("" :: y :: ys))
      with (String newline (String.concat (String newline "") (y :: ys))).
    rewrite IH. reflexivity.
  - destruct ys as [|z zs].
    + cbn [String.concat] in *. rewrite IH. reflexivity.
    + change (String.concat (String newline "") (String c y :: z :: zs))
        with (String c (String.concat (String newline "") (y :: z :: zs))).
      rewrite IH. reflexivity.
Qed.

Lemma process_layer_plain (material infill_density : option string)
    (snapshot_gcode : list string) (text : string) :
  Forall plain (split newline text) ->
  process_layer material infill_density snapshot_gcode text = Some (Ok text).
Proof.
  intros H. rewrite process_layer_walk, walk_plain by assumption.
  cbn [bind]. rewrite join_split. reflexivity.
Qed.

(** What [execute] does once the thumbnail block is built. *)
Lemma execute_with_block (h : host) (data : list string) (snapshot : QImage)
    (snapshot_gcode : list string) :
  _createSnapshot h THUMBNAIL_WIDTH THUMBNAIL_HEIGHT = Some snapshot ->
  _convertSnapshotToGcode
    (_encodeSnapshot
       (_convertImageToSJPG snapshot THUMBNAIL_WIDTH THUMBNAIL_HEIGHT
                            (quality_setting h) 16)) 80 = Ok snapshot_gcode ->
  execute h data
  = layer_loop (fst (print_settings h)) (snd (print_settings h)) snapshot_gcode
               (seq 0 (List.length data)) data.
Proof.
  intros Hs Hg. unfold execute. destruct (print_settings h) as [m i].
  cbv zeta. rewrite Hs, Hg. reflexivity.
Qed.

Lemma block_of_container (c : bytes) :
  exists snapshot_gcode,
    _convertSnapshotToGcode (_encodeSnapshot (Some c)) 80 = Ok snapshot_gcode.
Proof.
  destruct (encode_roundtrip c) as (u & E & _).
  unfold _encodeSnapshot. cbn. rewrite E. cbn [bind].
  eexists. apply (builder_chunks (lower u) 80). lia.
Qed.

(** X9.  Without a snapshot [execute] returns the document as it got it:
    nothing is raised and no line is rewritten, whatever the print
    settings and whatever lines the document has. *)
Theorem capture_failure_returns_document (h : host) (data : list string) :
  _createSnapshot h THUMBNAIL_WIDTH THUMBNAIL_HEIGHT = None ->
  execute h data = Some (Ok data).
Proof.
  intros Hs. unfold execute. destruct (print_settings h) as [m i].
  cbv zeta. rewrite Hs. reflexivity.
Qed.

Lemma capture_failure_returns_document_sample :
  execute no_snapshot_host [";Generated with Cura"; ";Filament used: 1.5m"]
  = Some (Ok [";Generated with Cura"; ";Filament used: 1.5m"]).
Proof.
  apply (capture_failure_returns_document no_snapshot_host). reflexivity.
Defined.

(** X10.  Splitting a layer at its newlines and joining the lines with newlines
    gives the layer back. *)
Theorem layer_text_survives_split_join (text : string) :
  join (String newline "") (split newline text) = text /\
  split newline text <> [].
Proof. split; [apply join_split|apply split_nonempty]. Qed.

(** X11.  A document none of whose lines starts with a marker is returned
    unchanged, with or without a snapshot and whatever the print
    settings, provided the snapshot, if there is one, converts. *)
Theorem plain_document_unchanged (h : host) (data : list string) :
  (forall snapshot,
     _createSnapshot h THUMBNAIL_WIDTH THUMBNAIL_HEIGHT = Some snapshot ->
     _convertImageToSJPG snapshot THUMBNAIL_WIDTH THUMBNAIL_HEIGHT
                         (quality_setting h) 16 <> None) ->
  (forall text, In text data -> Forall plain (split newline text)) ->
  execute h data = Some (Ok data).
Proof.
  intros Hconv Hplain.
  destruct (_createSnapshot h THUMBNAIL_WIDTH THUMBNAIL_HEIGHT) as [snapshot|] eqn:Hs.
  - specialize (Hconv snapshot eq_refl).
    destruct (_convertImageToSJPG snapshot THUMBNAIL_WIDTH THUMBNAIL_HEIGHT
                                  (quality_setting h) 16) as [c|] eqn:Hc;
      [|congruence].
    destruct (block_of_container c) as (gc & Hgc).
    rewrite (execute_with_block h data snapshot gc Hs) by (rewrite Hc; exact Hgc).
    apply layer_loop_fixed. intros text Ht.
    apply process_layer_plain. apply Hplain. exact Ht.
  - unfold execute. destruct (print_settings h) as [m i].
    cbv zeta. rewrite Hs. reflexivity.
Qed.

Lemma plain_document_unchanged_sample :
  execute two_extruder_host [(";FLAVOR:Marlin" ++ String newline "G28")%string; "G1 X0"]
  = Some (Ok [(";FLAVOR:Marlin" ++ String newline "G28")%string; "G1 X0"]).
Proof.
  apply (plain_document_unchanged two_extruder_host).
  - intros snapshot Hs. injection Hs as <-. vm_compute. discriminate.
  - intros text [<-|[<-|[]]]; repeat constructor.
Defined.

(** X12.  The loop over the lines, which looks lines up by content and inserts
    under its own iterator, always ends and does what one pass from the
    first line to the last does: every content look-up finds the line the
    iterator is at. *)
Theorem line_loop_is_one_pass (material infill_density : option string)
    (snapshot_gcode : list string) (text : string) :
  process_layer material infill_density snapshot_gcode text
  = Some (lines <~ walk material infill_density snapshot_gcode (split newline text) ;;
          Ok (join (String newline "") lines)).
Proof. apply process_layer_walk. Qed.

Lemma after_last_app (sep : ascii) (a r : string) (t : string) :
  after_last sep a = Some t -> exists t', after_last sep (a ++ r) = Some t'.
Proof.
  revert t. induction a as [|c a IH]; intros t H; [discriminate|].
  cbn [after_last String.append] in *.
  destruct (after_last sep a) as [u|] eqn:E.
  - destruct (IH u eq_refl) as (t' & ->). eauto.
  - destruct (after_last sep (a ++ r)); [eauto|].
    destruct (Ascii.eqb c sep); [eauto|discriminate].
Qed.

Lemma after_last_spec (sep : ascii) (s t : string) :
  after_last sep s = Some t ->
  (exists u, s = (u ++ String sep t)%string) /\ after_last sep t = None.
Proof.
  revert t. induction s as [|c s IH]; intros t H; [discriminate|].
  cbn [after_last] in H. destruct (after_last sep s) as [u|] eqn:E.
  - injection H as <-. destruct (IH u eq_refl) as ((v & ->) & Hn).
    split; [exists (String c v); reflexivity|exact Hn].
  - destruct (Ascii.eqb c sep) eqn:Ec; [|discriminate].
    injection H as <-. apply Ascii.eqb_eq in Ec. subst c.
    split; [exists ""; reflexivity|exact E].
Qed.

(** X13.  On a filament-usage line the last token is always there: taking it
    never raises an [IndexError], and it holds no space. *)
Theorem filament_line_has_last_token (line : string) :
  startswith line FILAMENT_USED = true ->
  exists token,
    rsplit1_last " " line = Ok token /\
    (exists before, line = (before ++ " " ++ token)%string) /\
    rsplit1_last " " token = Raise IndexError.
Proof.
  intros H. apply startswith_split in H. destruct H as (r & ->).
  destruct (after_last_app " " FILAMENT_USED r "" eq_refl) as (t & Ht).
  exists t. unfold rsplit1_last. rewrite Ht.
  destruct (after_last_spec _ _ _ Ht) as (Hu & Hn).
  rewrite Hn. repeat split. exact Hu.
Qed.

Lemma filament_line_has_last_token_sample :
  exists token, rsplit1_last " " ";Filament used: 0.8 m" = Ok token /\
    (exists before, ";Filament used: 0.8 m" = (before ++ " " ++ token)%string) /\
    rsplit1_last " " token = Raise IndexError.
Proof.
  apply (filament_line_has_last_token ";Filament used: 0.8 m"). reflexivity.
Defined.

Lemma setitem_length (l : list string) (j : nat) (x : string) (l' : list string) :
  setitem l j x = Ok l' -> List.length l' = List.length l.
Proof.
  revert j l'. induction l as [|y l IH]; intros j l' H; [discriminate|].
  destruct j as [|j]; cbn [setitem] in H.
  - injection H as <-. reflexivity.
  - destruct (setitem l j x) as [l0|] eqn:E; [|discriminate].
    injection H as <-. cbn. f_equal. eapply IH; eassumption.
Qed.

Lemma layer_loop_length (material infill_density : option string)
    (snapshot_gcode : list string) (ixs : list nat) :
  forall data data',
    layer_loop material infill_density snapshot_gcode ixs data = Some (Ok data') ->
    List.length data' = List.length data.
Proof.
  induction ixs as [|i ixs IH]; intros data data' H; cbn [layer_loop] in H.
  - congruence.
  - destruct (nth_error data i) as [layer|]; [|congruence].
    destruct (index layer data) as [j|]; cbn [bind] in H; [|discriminate].
    destruct (getitem data j) as [text|]; cbn [bind] in H; [|discriminate].
    rewrite process_layer_walk in H. cbn -[walk setitem split] in H.
    destruct (walk _ _ _ _) as [lines|]; cbn [bind] in H; [|discriminate].
    destruct (setitem data j _) as [data0|] eqn:E; [|discriminate].
    rewrite (IH _ _ H). eapply setitem_length; eassumption.
Qed.

(** X14.  When [execute] returns, the document has as many layer segments as
    before. *)
Theorem segment_count_preserved (h : host) (data data' : list string) :
  execute h data = Some (Ok data') -> List.length data' = List.length data.
Proof.
  unfold execute. destruct (print_settings h) as [m i]. cbv zeta.
  destruct (_createSnapshot h THUMBNAIL_WIDTH THUMBNAIL_HEIGHT); [|congruence].
  destruct (_convertSnapshotToGcode _ 80); [|discriminate].
  apply layer_loop_length.
Qed.

Lemma segment_count_preserved_sample :
  exists data',
    execute good_host [";Generated with Cura"; ";Filament used: 1m"; "G28"]
      = Some (Ok data') /\ List.length data' = 3%nat.
Proof.
  eexists. split; [vm_compute; reflexivity|].
  apply (segment_count_preserved good_host
           [";Generated with Cura"; ";Filament used: 1m"; "G28"]).
  vm_compute. reflexivity.
Defined.

(** X15.  In a layer without filament-usage lines the thumbnail block is put
    after the first generator line and nothing else changes, also when
    the print settings could not be read. *)
Theorem thumbnail_without_settings (material infill_density : option string)
    (snapshot_gcode : list string) (text : string) :
  Forall (fun l => startswith l FILAMENT_USED = false) (split newline text) ->
  process_layer material infill_density snapshot_gcode text
  = Some (Ok (join (String newline "")
                (after_generator snapshot_gcode (split newline text)))).
Proof.
  intros H. rewrite process_layer_walk, walk_no_filament by assumption. reflexivity.
Qed.

Lemma thumbnail_without_settings_sample :
  process_layer None None ["W221"; "W222"]
    (String.concat (String newline "")
       ["G28"; ";Generated with Cura 5"; ";Generated with Cura 5"])
  = Some (Ok (String.concat (String newline "")
       ["G28"; ";Generated with Cura 5"; "W221"; "W222"; ";Generated with Cura 5"])).
Proof.
  apply (thumbnail_without_settings None None ["W221"; "W222"]).
  vm_compute. repeat constructor.
Defined.

(** X16.  The layer that is rewritten is the first one whose text equals the
    current layer's: when the second layer reads as the first one does
    once rewritten, the first layer is rewritten twice and the second one
    not at all. *)
Theorem layer_found_by_content (h : host) (snapshot : QImage)
    (snapshot_gcode : list string) (a b c : string) :
  _createSnapshot h THUMBNAIL_WIDTH THUMBNAIL_HEIGHT = Some snapshot ->
  _convertSnapshotToGcode
    (_encodeSnapshot
       (_convertImageToSJPG snapshot THUMBNAIL_WIDTH THUMBNAIL_HEIGHT
                            (quality_setting h) 16)) 80 = Ok snapshot_gcode ->
  process_layer (fst (print_settings h)) (snd (print_settings h)) snapshot_gcode a
    = Some (Ok b) ->
  process_layer (fst (print_settings h)) (snd (print_settings h)) snapshot_gcode b
    = Some (Ok c) ->
  execute h [a; b] = Some (Ok [c; b]).
Proof.
  intros Hs Hg Ha Hb.
  rewrite (execute_with_block h _ snapshot snapshot_gcode Hs Hg).
  cbn [List.length seq layer_loop nth_error]. unfold index, getitem.
  cbn [index_of]. rewrite String.eqb_refl. cbn [bind nth_error].
  rewrite Ha. cbn [bind setitem nth_error index_of].
  rewrite String.eqb_refl. cbn [bind nth_error].
  rewrite Hb. reflexivity.
Qed.

Lemma layer_found_by_content_sample :
  execute good_host [";Generated with Cura"; once_rewritten]
  = Some (Ok [twice_rewritten; once_rewritten]) /\
  once_rewritten <> twice_rewritten.
Proof.
  split.
  - apply (layer_found_by_content good_host one_byte_strips good_host_block).
    + reflexivity.
    + vm_compute. reflexivity.
    + vm_compute. reflexivity.
    + vm_compute. reflexivity.
  - vm_compute. discriminate.
Defined.

(** X17.  For any value made of ASCII characters that [float] accepts,
    the filament-usage line becomes the usage line with the value times
    1000 at two decimals, after the infill-density line and the material
    line. *)
Theorem filament_marker_any_value
    (material infill_density : string) (snapshot_gcode : list string)
    (text : string) (pre : list string) (line : string) (post : list string)
    (token : string) (amount_m : Float64.float) :
  split newline text = pre ++ line :: post ->
  Forall plain pre ->
  startswith line FILAMENT_USED = true ->
  rsplit1_last " " line = Ok token ->
  all_chars is_ascii token = true ->
  float_of_str (remove_char "m" token) = Ok amount_m ->
  Forall (fun l => startswith l FILAMENT_USED = false) post ->
  process_layer (Some material) (Some infill_density) snapshot_gcode text
  = Some (Ok (join (String newline "")
                (pre ++
                 [(";InfillDensity:" ++ infill_density)%string;
                  (";FilamentType:" ++ material)%string;
                  (";FilamentUsed:" ++ format_2f (Float64.mul_int amount_m 1000))%string] ++
                 after_generator snapshot_gcode post))).
Proof.
  intros Hsplit Hpre Hf Htok _ Hval Hpost.
  rewrite process_layer_walk, Hsplit, walk_app.
  2:{ eapply Forall_impl; [|exact Hpre]. intros l [_ Hg]. exact Hg. }
  rewrite walk_plain by assumption. cbn [bind walk].
  rewrite Hf, Htok. cbn [bind]. rewrite Hval. cbn [bind load].
  rewrite walk_no_filament by assumption. reflexivity.
Qed.

Lemma filament_marker_any_value_sample :
  process_layer (Some "PETG") (Some "15") ["W221"; "W222"]
    (String.concat (String newline "") ["G28"; ";Filament used: 1.005m"; "G1 X0"])
  = Some (Ok (String.concat (String newline "")
       ["G28"; ";InfillDensity:15"; ";FilamentType:PETG";
        ";FilamentUsed:1005.00"; "G1 X0"])).
Proof.
  apply (filament_marker_any_value "PETG" "15" ["W221"; "W222"]
           (String.concat (String newline "") ["G28"; ";Filament used: 1.005m"; "G1 X0"])
           ["G28"] ";Filament used: 1.005m" ["G1 X0"] "1.005m"
           (Float64.Ffin false 4526117625507348 (-52))).
  - vm_compute. reflexivity.
  - repeat constructor.
  - vm_compute. reflexivity.
  - vm_compute. reflexivity.
  - reflexivity.
  - vm_compute. reflexivity.
  - repeat constructor.
Defined.

(** * Layer by layer *)

Lemma layer_loop_each (material infill_density : option string)
    (snapshot_gcode : list string) (todo out : list string) :
  Forall2 (fun x y =>
             process_layer material infill_density snapshot_gcode x = Some (Ok y))
          todo out ->
  forall done : list string,
    (forall y, In y todo -> ~ In y done) ->
    (forall a b y' y, (a < b)%nat -> nth_error out a = Some y' ->
                      nth_error todo b = Some y -> y <> y') ->
    layer_loop material infill_density snapshot_gcode
               (seq (List.length done) (List.length todo)) (done ++ todo)
    = Some (Ok (done ++ out)).
Proof.
  induction 1 as [|t t' rest rest' Ht _ IH]; intros done Hd Hp.
  - reflexivity.
  - cbn [List.length seq layer_loop]. rewrite nth_error_middle.
    unfold index. rewrite index_of_first.
    2:{ apply Forall_forall. intros l Hl E. subst l. apply (Hd t); [left; reflexivity|exact Hl]. }
    cbn [bind]. unfold getitem. rewrite nth_error_middle. cbn [bind].
    rewrite Ht. cbn [bind]. rewrite setitem_at.
    replace (S (List.length done)) with (List.length (done ++ [t']))
      by (rewrite length_app; cbn; lia).
    replace (done ++ t' :: rest) with ((done ++ [t']) ++ rest)
      by (rewrite <- app_assoc; reflexivity).
    rewrite IH.
    + rewrite <- app_assoc. reflexivity.
    + intros y Hy Hin. apply in_app_or in Hin. destruct Hin as [Hin|[<-|[]]].
      * apply (Hd y); [right; exact Hy|exact Hin].
      * apply In_nth_error in Hy. destruct Hy as (k & Hk).
        apply (Hp 0%nat (S k) t' t'); [lia|reflexivity|exact Hk|reflexivity].
    + intros a b y' y Hab Ha Hb.
      apply (Hp (S a) (S b) y' y); [lia|exact Ha|exact Hb].
Qed.

(** X18.  When no layer reads as an earlier layer does once rewritten, [execute]
    rewrites the layers one by one, each from its own text. *)
Theorem layers_rewritten_one_by_one (h : host) (snapshot : QImage)
    (snapshot_gcode : list string) (data out : list string) :
  _createSnapshot h THUMBNAIL_WIDTH THUMBNAIL_HEIGHT = Some snapshot ->
  _convertSnapshotToGcode
    (_encodeSnapshot
       (_convertImageToSJPG snapshot THUMBNAIL_WIDTH THUMBNAIL_HEIGHT
                            (quality_setting h) 16)) 80 = Ok snapshot_gcode ->
  Forall2 (fun x y =>
             process_layer (fst (print_settings h)) (snd (print_settings h))
                           snapshot_gcode x = Some (Ok y))
          data out ->
  (forall a b y' y, (a < b)%nat -> nth_error out a = Some y' ->
                    nth_error data b = Some y -> y <> y') ->
  execute h data = Some (Ok out).
Proof.
  intros Hs Hg Hall Hp.
  rewrite (execute_with_block h data snapshot snapshot_gcode Hs Hg).
  apply (layer_loop_each _ _ _ data out Hall []); [|exact Hp].
  intros y _ [].
Qed.

Lemma layers_rewritten_one_by_one_sample :
  execute good_host ["G28"; ";Filament used: 2m"; ";Generated with Cura"]
  = Some (Ok ["G28"; two_metres_rewritten; once_rewritten]).
Proof.
  apply (layers_rewritten_one_by_one good_host one_byte_strips good_host_block).
  - reflexivity.
  - vm_compute. reflexivity.
  - repeat (apply Forall2_cons; [vm_compute; reflexivity|]). apply Forall2_nil.
  - intros a b y' y Hab Ha Hb.
    destruct b as [|[|[|b]]]; [lia| | |destruct b; discriminate].
    + destruct a as [|a]; [|lia]. injection Ha as <-. injection Hb as <-.
      discriminate.
    + destruct a as [|[|a]]; [| |lia];
        injection Ha as <-; injection Hb as <-.
      * discriminate.
      * vm_compute. discriminate.
Defined.

(** * The print settings *)

(** X19.  The material is read only when there is exactly one extruder and its
    material is reachable, the infill density only when the material was
    read: a failure leaves the material, or both, unbound. *)
Theorem settings_need_one_extruder (h : host) :
  (fst (print_settings h) <> None <->
   exists e metadata, extruderList h = Some [e] /\ getMetaData e = Some metadata) /\
  (snd (print_settings h) <> None -> fst (print_settings h) <> None).
Proof.
  unfold print_settings.
  destruct (extruderList h) as [[|e [|e' l]]|]; cbn [fst snd].
  - split; [split|]; [congruence|intros (e & m & H & _); discriminate|congruence].
  - destruct (getMetaData e) as [metadata|] eqn:E; cbn [fst snd].
    + split; [split|]; [eauto|discriminate|discriminate].
    + split; [split|]; [congruence| |congruence].
      intros (e0 & m & H & Hm). injection H as <-. congruence.
  - split; [split|]; [congruence|intros (e0 & m & H & _); discriminate|congruence].
  - split; [split|]; [congruence|intros (e0 & m & H & _); discriminate|congruence].
Qed.

Lemma settings_need_one_extruder_sample :
  fst (print_settings good_host) <> None /\
  fst (print_settings two_extruder_host) = None.
Proof.
  split; [|reflexivity].
  destruct (settings_need_one_extruder good_host) as [[_ H] _].
  apply H. eexists. eexists. split; reflexivity.
Defined.

(** * What can escape *)

Lemma float_of_str_raises (s : string) (e : exn) :
  float_of_str s = Raise e -> e = ValueError.
Proof.
  unfold float_of_str. intros H.
  destruct (strip_underscores _ _) as [t|]; [|congruence].
  destruct (match strtod t with Some r => Some r | None => parse_inf_or_nan t end)
    as [[x [|c r]]|]; congruence.
Qed.

Lemma filament_line_token (line : string) :
  startswith line FILAMENT_USED = true ->
  exists token, rsplit1_last " " line = Ok token.
Proof.
  intros H. apply startswith_split in H. destruct H as (r & ->).
  destruct (after_last_app " " FILAMENT_USED r "" eq_refl) as (t & Ht).
  exists t. unfold rsplit1_last. rewrite Ht. reflexivity.
Qed.

Lemma walk_raises (material infill_density : option string)
    (snapshot_gcode : list string) (lines : list string) (e : exn) :
  walk material infill_density snapshot_gcode lines = Raise e ->
  e = ValueError \/ e = UnboundLocalError.
Proof.
  induction lines as [|line rest IH]; cbn [walk]; [discriminate|].
  destruct (startswith line FILAMENT_USED) eqn:Hf.
  - destruct (filament_line_token line Hf) as (token & ->). cbn [bind].
    destruct (float_of_str _) as [x|e0] eqn:Ev; cbn [bind].
    + destruct material; cbn [load bind]; [|intros [= <-]; auto].
      destruct infill_density; cbn [load bind]; [|intros [= <-]; auto].
      destruct (walk _ _ _ rest); cbn [bind]; [discriminate|].
      intros [= <-]. apply IH. reflexivity.
    + intros [= <-]. left. eapply float_of_str_raises. eassumption.
  - destruct (startswith line GENERATED_WITH); [discriminate|].
    destruct (walk _ _ _ rest); cbn [bind]; [discriminate|].
    intros [= <-]. apply IH. reflexivity.
Qed.

Lemma layer_loop_outcome (material infill_density : option string)
    (snapshot_gcode : list string) (ixs : list nat) :
  forall data,
  exists r,
    layer_loop material infill_density snapshot_gcode ixs data = Some r /\
    forall e, r = Raise e -> e = ValueError \/ e = UnboundLocalError.
Proof.
  induction ixs as [|i ixs IH]; intros data; cbn [layer_loop].
  - eexists. split; [reflexivity|discriminate].
  - destruct (nth_error data i) as [layer|] eqn:Hl;
      [|eexists; split; [reflexivity|discriminate]].
    destruct (index_of_nth layer data i Hl) as (j & Hj & _ & Hnj).
    unfold index, getitem. rewrite Hj. cbn [bind]. rewrite Hnj. cbn [bind].
    rewrite process_layer_walk. cbn -[walk setitem split].
    destruct (walk _ _ _ _) as [lines|e0] eqn:Hw; cbn [bind].
    + destruct (setitem_nth data j layer (join (String newline "") lines) Hnj)
        as (data' & -> & _). apply IH.
    + eexists. split; [reflexivity|]. intros e [= <-].
      eapply walk_raises. eassumption.
Qed.

(** X20.  [execute] always ends, with a document or with an exception, and the
    only exceptions that escape are the [TypeError] of a snapshot that
    did not convert, the [ValueError] of a filament value that is not a
    number and the [UnboundLocalError] of print settings that were not
    read: never an [IndexError]. *)
Theorem execute_outcomes (h : host) (data : list string) :
  exists r,
    execute h data = Some r /\
    forall e, r = Raise e ->
      e = TypeError \/ e = ValueError \/ e = UnboundLocalError.
Proof.
  unfold execute. destruct (print_settings h) as [m i]. cbv zeta.
  destruct (_createSnapshot h THUMBNAIL_WIDTH THUMBNAIL_HEIGHT) as [snapshot|];
    [|eexists; split; [reflexivity|discriminate]].
  destruct (_convertImageToSJPG snapshot _ _ _ 16) as [c|].
  - destruct (block_of_container c) as (gc & ->).
    destruct (layer_loop_outcome m i gc (seq 0 (List.length data)) data)
      as (r & -> & Hr).
    exists r. split; [reflexivity|]. intros e He. right. apply Hr. exact He.
  - eexists. split; [reflexivity|]. intros e [= <-]. left. reflexivity.
Qed.
